(** * The MCP stdio mock server ([mcp_mock_server.py])

    A shallow embedding of [src-tauri/tests/resources/mcp_mock_server.py]:
    [load_config], [process_request] and [main], together with the part of
    Python's object model that the three functions exercise on decoded JSON
    values ([in], subscripting, [len], [str], [dict.get]).

    Modelling decisions.
    - A decoded JSON value is a [json] tree.  A Python [dict] is an
      association list in insertion order (the order [json.dumps] and [str]
      print it in); lookup finds the first binding of a key.
    - A Python [int] is a [Z]; a Python [float] is an IEEE binary64 [float].
    - A Python [str] is a [string], one [ascii] per character, which covers
      the code points below 256.
    - Output and blocking are recorded as a trace of [event]s; an exception is
      an outcome [Raise].  The monad [M] threads both.
    - Library functions whose text the repository does not contain
      ([json.loads], [json.dumps], [int], [repr] of floats and strings, the
      text of an exception) are fields of the class [PyRuntime].
      [json.loads] returns a value or raises: [JSONDecodeError] on a text that
      is not JSON, and whatever else the decoder raises ([RecursionError] on
      deeply nested text, [ValueError] on a number of too many digits).
    - [time.sleep] takes what fits in 2^63 - 1 nanoseconds and raises
      [OverflowError] beyond. *)

From Stdlib Require Import ZArith Floats Ascii.
From stdpp Require Import base option strings list gmap pretty.

Local Open Scope Z_scope.

(** ** Decoded JSON values *)

#[warnings="-register-all"]
Inductive json : Type :=
| JNull
| JBool (b : bool)
| JInt (n : Z)
| JFloat (f : float)
| JString (s : string)
| JList (items : list json)
| JDict (fields : list (string * json)).

(** First binding of key [k] in a dict. *)
Fixpoint dict_lookup (k : string) (d : list (string * json)) : option json :=
  match d with
  | [] => None
  | (k', v) :: d' => if String.eqb k k' then Some v else dict_lookup k d'
  end.

(** ** Exceptions, events and the monad of effects *)

Inductive exn : Type :=
| AttributeError
| TypeError
| IndexError
| KeyError
| JSONDecodeError (msg : string)      (* json.JSONDecodeError [e], [str(e) = msg] *)
| RecursionError
| ValueError
| OverflowError.

Inductive event : Type :=
| Stdout (line : string)      (* print(..., flush=True) *)
| Stderr (line : string)      (* print(..., file=sys.stderr, flush=True) *)
| Sleep (seconds : Z).        (* time.sleep(seconds) *)

Inductive outcome (A : Type) : Type :=
| Return (a : A)
| Raise (e : exn).
Arguments Return {A} a.
Arguments Raise {A} e.

(** A computation: the events it performed, in order, and how it ended. *)
Definition M (A : Type) : Type := list event * outcome A.

Definition ret {A} (a : A) : M A := ([], Return a).
Definition raise {A} (e : exn) : M A := ([], Raise e).
Definition emit (ev : event) : M unit := ([ev], Return tt).

Definition bind {A B} (m : M A) (k : A -> M B) : M B :=
  match m with
  | (evs, Raise e) => (evs, Raise e)
  | (evs, Return a) => let '(evs', r) := k a in (evs ++ evs', r)
  end.

(** The monad is used through stdpp's [mret], [x ← m; k] and [m;; k]. *)
#[global] Instance M_ret : MRet M := @ret.
#[global] Instance M_bind : MBind M := fun A B k m => bind m k.

(** ** Python operations on decoded values *)


(** [v is None]. *)
Definition is_none (v : json) : bool :=
  match v with JNull => true | _ => false end.

(** [hash(v)] succeeds: lists and dicts are unhashable. *)
Definition hashable (v : json) : bool :=
  match v with JList _ | JDict _ => false | _ => true end.

(** A float equals an integer when it is finite and denotes that integer
    exactly (Python compares the two without rounding). *)
Definition float_eq_Z (f : float) (z : Z) : bool :=
  match Prim2SF f with
  | S754_zero _ => z =? 0
  | S754_finite sign m e =>
      let mag := Z.pos m in
      let signed (x : Z) := if sign then - x else x in
      if 0 <=? e then z =? signed (mag * 2 ^ e)
      else (mag mod 2 ^ (- e) =? 0) && (z =? signed (mag / 2 ^ (- e)))
  | _ => false
  end.

(** The numeric view of ints and bools ([bool] is a subclass of [int]). *)
Definition as_int (v : json) : option Z :=
  match v with
  | JInt n => Some n
  | JBool b => Some (if b then 1 else 0)
  | _ => None
  end.

(** [a is b or a == b] on decoded values, the test a container applies to
    its items.  Identity adds one case to equality: [json.loads] gives every
    [NaN] of a text the same object, which is unequal to itself. *)
Fixpoint py_eq (a b : json) {struct a} : bool :=
  match a, b with
  | JNull, JNull => true
  | JString s, JString t => String.eqb s t
  | JFloat f, JFloat g => PrimFloat.eqb f g || PrimFloat.is_nan f && PrimFloat.is_nan g
  | JFloat f, (JInt _ | JBool _) =>
      match as_int b with Some n => float_eq_Z f n | None => false end
  | (JInt _ | JBool _), JFloat g =>
      match as_int a with Some n => float_eq_Z g n | None => false end
  | (JInt _ | JBool _), (JInt _ | JBool _) =>
      match as_int a, as_int b with
      | Some n, Some m => n =? m
      | _, _ => false
      end
  | JList la, JList lb =>
      (fix all2 (xs ys : list json) : bool :=
         match xs, ys with
         | [], [] => true
         | x :: xs', y :: ys' => py_eq x y && all2 xs' ys'
         | _, _ => false
         end) la lb
  | JDict da, JDict db =>
      (length da =? length db)%nat &&
      (fix sub (xs : list (string * json)) : bool :=
         match xs with
         | [] => true
         | (k, x) :: xs' =>
             match dict_lookup k db with
             | Some y => py_eq x y
             | None => false
             end && sub xs'
         end) da
  | _, _ => false
  end.

(** [needle in hay] on strings: [needle] occurs as a substring. *)
Fixpoint substringb (needle hay : string) : bool :=
  String.prefix needle hay ||
  match hay with
  | EmptyString => false
  | String _ hay' => substringb needle hay'
  end.

(** [x in container]. *)
Definition py_in (x container : json) : M bool :=
  match container with
  | JDict d =>
      match x with
      | JList _ | JDict _ => raise TypeError        (* unhashable *)
      | JString s => ret (bool_decide (is_Some (dict_lookup s d)))
      | _ => ret false                              (* every key is a str *)
      end
  | JList l => ret (existsb (py_eq x) l)
  | JString hay =>
      match x with
      | JString needle => ret (substringb needle hay)
      | _ => raise TypeError
      end
  | _ => raise TypeError                            (* not iterable *)
  end.

(** [seq[i]] for a sequence of length [len]: the position read, if any. *)
Definition seq_index (i : Z) (len : nat) : option nat :=
  let j := if i <? 0 then i + Z.of_nat len else i in
  if (0 <=? j) && (j <? Z.of_nat len) then Some (Z.to_nat j) else None.

(** [container[key]]. *)
Definition py_getitem (container key : json) : M json :=
  match container with
  | JDict d =>
      match key with
      | JList _ | JDict _ => raise TypeError
      | JString s =>
          match dict_lookup s d with
          | Some v => ret v
          | None => raise KeyError
          end
      | _ => raise KeyError
      end
  | JList l =>
      match as_int key with
      | Some i =>
          match seq_index i (length l) with
          | Some j => match l !! j with Some v => ret v | None => raise IndexError end
          | None => raise IndexError
          end
      | None => raise TypeError
      end
  | JString s =>
      match as_int key with
      | Some i =>
          match seq_index i (String.length s) with
          | Some j =>
              match String.get j s with
              | Some c => ret (JString (String c EmptyString))
              | None => raise IndexError
              end
          | None => raise IndexError
          end
      | None => raise TypeError
      end
  | _ => raise TypeError                            (* not subscriptable *)
  end.

(** [len(v)]. *)
Definition py_len (v : json) : M Z :=
  match v with
  | JDict d => ret (Z.of_nat (length d))
  | JList l => ret (Z.of_nat (length l))
  | JString s => ret (Z.of_nat (String.length s))
  | _ => raise TypeError
  end.

(** [obj.get(key)]: only a dict has the attribute [get]; a missing key
    gives [None]. *)
Definition py_get (obj : json) (key : string) : M json :=
  match obj with
  | JDict d => ret (default JNull (dict_lookup key d))
  | _ => raise AttributeError
  end.

(** [time.sleep(seconds)] for an [int]: the duration is converted to
    nanoseconds in 64 bits, which fails beyond [max_sleep] seconds either
    way; a negative duration is refused. *)
Definition max_sleep : Z := 9223372036.

Definition py_sleep (seconds : Z) : M unit :=
  if (seconds <? - max_sleep) || (max_sleep <? seconds) then raise OverflowError
  else if seconds <? 0 then raise ValueError
  else emit (Sleep seconds).

(** [str.strip()] and [str.lower()] on the code points below 256. *)
Definition is_space (c : ascii) : bool :=
  let n := N_of_ascii c in
  ((9 <=? n) && (n <=? 13) || (28 <=? n) && (n <=? 32) || (n =? 133) || (n =? 160))%N.

Fixpoint lstrip (s : string) : string :=
  match s with
  | String c s' => if is_space c then lstrip s' else s
  | EmptyString => EmptyString
  end.

Fixpoint rstrip (s : string) : string :=
  match s with
  | EmptyString => EmptyString
  | String c s' =>
      match rstrip s' with
      | EmptyString => if is_space c then EmptyString else String c EmptyString
      | t => String c t
      end
  end.

Definition str_strip (s : string) : string := rstrip (lstrip s).

Definition lower_char (c : ascii) : ascii :=
  let n := N_of_ascii c in
  if ((65 <=? n) && (n <=? 90) || (192 <=? n) && (n <=? 222) && negb (n =? 215))%N
  then ascii_of_N (n + 32) else c.

Fixpoint str_lower (s : string) : string :=
  match s with
  | EmptyString => EmptyString
  | String c s' => String (lower_char c) (str_lower s')
  end.

(** ** The library functions the server imports *)

Class PyRuntime : Type := {
  (** [json.loads(text)]: the value decoded, or the exception raised. *)
  json_loads : string -> outcome json;
  (** [json.dumps(value)]. *)
  json_dumps : json -> string;
  (** [int(text)]: [None] is a [ValueError]. *)
  py_int : string -> option Z;
  (** [repr] of a float and of a string. *)
  float_repr : float -> string;
  str_repr : string -> string;
  (** [str(e)] of an exception that reaches the handler of [main]. *)
  exn_text : exn -> string;
  (** The two defaults of [load_config] decode as Python decodes them. *)
  json_loads_empty_object : json_loads "{}" = Return (JDict []);
  py_int_zero : py_int "0" = Some 0;
  (** The empty text is not a JSON document. *)
  json_loads_empty_text : exists msg, json_loads EmptyString = Raise (JSONDecodeError msg)
}.

Section Server.
Context `{RT : PyRuntime}.

(** [repr(v)], and [str(v)] which differs from it on a string only. *)
Fixpoint py_repr (v : json) : string :=
  match v with
  | JNull => "None"
  | JBool b => if b then "True" else "False"
  | JInt n => pretty n
  | JFloat f => float_repr f
  | JString s => str_repr s
  | JList l => "[" +:+ String.concat ", " (map py_repr l) +:+ "]"
  | JDict d =>
      "{" +:+ String.concat ", "
                (map (fun kv => str_repr (fst kv) +:+ ": " +:+ py_repr (snd kv)) d)
          +:+ "}"
  end.

Definition py_str (v : json) : string :=
  match v with
  | JString s => s
  | _ => py_repr v
  end.

(** ** [load_config] *)

(** The tuple [load_config] returns. *)
Record config : Type := Config {
  responses : json;
  errors : json;
  delay_seconds : Z;
  hang_forever : bool
}.

(** [os.environ.get(name, fallback)]. *)
Definition environ_get (environ : gmap string string) (name fallback : string) : string :=
  default fallback (environ !! name).

(** [if text:] on a string. *)
Definition nonempty (text : string) : bool :=
  negb (String.eqb text EmptyString).

Definition load_config (environ : gmap string string) : M config :=
  let responses := JDict [] in
  let errors := JDict [] in
  let delay_seconds := 0 in
  (* Load responses from MCP_MOCK_RESPONSES (JSON) *)
  let responses_json := environ_get environ "MCP_MOCK_RESPONSES" "{}" in
  responses ←
    (if nonempty responses_json then
       match json_loads responses_json with
       | Return v => mret v
       | Raise (JSONDecodeError _) =>
           emit (Stderr "ERROR: Invalid MCP_MOCK_RESPONSES JSON");; mret responses
       | Raise e => raise e
       end
     else mret responses);
  (* Load errors from MCP_MOCK_ERRORS (JSON) *)
  let errors_json := environ_get environ "MCP_MOCK_ERRORS" "{}" in
  errors ←
    (if nonempty errors_json then
       match json_loads errors_json with
       | Return v => mret v
       | Raise (JSONDecodeError _) =>
           emit (Stderr "ERROR: Invalid MCP_MOCK_ERRORS JSON");; mret errors
       | Raise e => raise e
       end
     else mret errors);
  (* Load delay setting *)
  let delay_str := environ_get environ "MCP_MOCK_DELAY" "0" in
  delay_seconds ←
    match py_int delay_str with
    | Some n => mret n
    | None =>
        emit (Stderr ("ERROR: Invalid MCP_MOCK_DELAY value: " +:+ delay_str));;
        mret delay_seconds
    end;
  (* Load hang forever setting *)
  let hang_forever :=
    bool_decide (str_lower (environ_get environ "MCP_MOCK_HANG" EmptyString)
                   ∈ ["1"; "true"; "yes"]) in
  mret (Config responses errors delay_seconds hang_forever).

(** ** [process_request] *)

(** The two shapes of a response object. *)
Definition error_response (id code message : json) : json :=
  JDict [("jsonrpc", JString "2.0");
         ("id", id);
         ("error", JDict [("code", code); ("message", message)])].

Definition result_response (id result : json) : json :=
  JDict [("jsonrpc", JString "2.0");
         ("id", id);
         ("result", result)].

(** [None] is the Python [None] that [process_request] returns for a
    notification; [Some r] is a response object. *)
Definition process_request (request_line : string) (responses errors : json)
    (delay_seconds : Z) : M (option json) :=
  match json_loads request_line with
  | Raise (JSONDecodeError e) =>
      (* Parse error *)
      mret (Some (error_response JNull (JInt (-32700)) (JString ("Parse error: " +:+ e))))
  | Raise e => raise e
  | Return request =>
      (* Extract request details *)
      method ← py_get request "method";
      req_id ← py_get request "id";
      (* Apply delay if configured *)
      (if 0 <? delay_seconds then py_sleep delay_seconds else mret tt);;
      (* Check if this is a notification (no response needed) *)
      if is_none req_id then mret (@None json) else
      (* Check for error response *)
      in_errors ← py_in method errors;
      if (in_errors : bool) then
        error_data ← py_getitem errors method;
        let '(error_code, error_message) :=
          match error_data with
          | JList (e0 :: e1 :: _) => (e0, e1)
          | JDict d =>
              (default (JInt (-32603)) (dict_lookup "code" d),
               default (JString "Internal error") (dict_lookup "message" d))
          | _ => (JInt (-32603), JString (py_str error_data))
          end in
        mret (Some (error_response req_id error_code error_message))
      else
      (* Check for success response *)
      in_responses ← py_in method responses;
      if (in_responses : bool) then
        result ← py_getitem responses method;
        mret (Some (result_response req_id result))
      else
      (* Method not found *)
      mret (Some (error_response req_id (JInt (-32601))
                    (JString ("Method not found: " +:+ py_str method))))
  end.

(** ** [main] *)

(** The body of [for line in sys.stdin]. *)
Definition serve_line (line : string) (responses errors : json) (delay_seconds : Z)
    : M unit :=
  let line := str_strip line in
  if negb (nonempty line) then mret tt else
  (* Process request *)
  response ← process_request line responses errors delay_seconds;
  (* Write response if not a notification *)
  match response with
  | Some r => emit (Stdout (json_dumps r))
  | None => mret tt
  end.

(** [main] up to the test of [hang_forever]: the configuration is loaded and
    summarised on the error stream.  These statements stand outside the
    [try], so an exception here ends the process. *)
Definition startup (environ : gmap string string) : M config :=
  cfg ← load_config environ;
  emit (Stderr "MCP Mock Server starting...");;
  n_responses ← py_len (responses cfg);
  emit (Stderr ("Responses: " +:+ pretty n_responses +:+ " methods"));;
  n_errors ← py_len (errors cfg);
  emit (Stderr ("Errors: " +:+ pretty n_errors +:+ " methods"));;
  emit (Stderr ("Delay: " +:+ pretty (delay_seconds cfg) +:+ "s"));;
  emit (Stderr ("Hang: " +:+ if hang_forever cfg then "True" else "False"));;
  mret cfg.

(** Where the process is. *)
Inductive mode : Type :=
| Hanging                                         (* in [while True: time.sleep(1)] *)
| Serving (responses errors : json) (delay_seconds : Z)   (* in the [for] loop *)
| Exited                                          (* [main] returned *)
| Crashed (e : exn).      (* an exception left [main]; the traceback is not recorded *)

(** The process and its channels: the lines not yet read from standard input
    and everything done so far. *)
Record process : Type := Process {
  proc_mode : mode;
  proc_stdin : list string;
  proc_trace : list event
}.

Definition main_start (environ : gmap string string) (stdin : list string) : process :=
  match startup environ with
  | (evs, Raise e) => Process (Crashed e) stdin evs
  | (evs, Return cfg) =>
      (* If hang_forever is set, just sleep forever *)
      if hang_forever cfg
      then Process Hanging stdin (evs ++ [Stderr "HANGING FOREVER"])
      else Process (Serving (responses cfg) (errors cfg) (delay_seconds cfg)) stdin evs
  end.

(** One turn of the loop the process is in: the next mode, the input left
    and the events of the turn; [None] once the process has ended. *)
Definition turn (m : mode) (stdin : list string)
    : option (mode * list string * list event) :=
  match m with
  | Hanging => Some (Hanging, stdin, [Sleep 1])
  | Serving rs es d =>
      match stdin with
      | [] => Some (Exited, [], [])
      | line :: rest =>
          match serve_line line rs es d with
          | (evs, Return _) => Some (Serving rs es d, rest, evs)
          | (evs, Raise e) =>
              (* except Exception as e *)
              Some (Exited, rest, evs ++ [Stderr ("Mock server error: " +:+ exn_text e)])
          end
      end
  | Exited | Crashed _ => None
  end.

Definition step (p : process) : option process :=
  match turn (proc_mode p) (proc_stdin p) with
  | Some (m, stdin, evs) => Some (Process m stdin (proc_trace p ++ evs))
  | None => None
  end.

(** [n] turns, or as many as the process takes before it ends. *)
Fixpoint run (n : nat) (p : process) : process :=
  match n with
  | O => p
  | S n' => match step p with Some p' => run n' p' | None => p end
  end.

Definition main (environ : gmap string string) (stdin : list string) (fuel : nat)
    : process :=
  run fuel (main_start environ stdin).

(** The block [load_config] runs for each of the two JSON settings, [name]
    being the variable and [text] its value or the fallback. *)
Definition json_setting (name text : string) : M json :=
  if nonempty text then
    match json_loads text with
    | Return v => mret v
    | Raise (JSONDecodeError _) =>
        emit (Stderr ("ERROR: Invalid " +:+ name +:+ " JSON"));; mret (JDict [])
    | Raise e => raise e
    end
  else mret (JDict []).

(** The block [load_config] runs for the delay setting. *)
Definition delay_setting (text : string) : M Z :=
  match py_int text with
  | Some n => mret n
  | None => emit (Stderr ("ERROR: Invalid MCP_MOCK_DELAY value: " +:+ text));; mret 0
  end.

(** The value [load_config] gives [hang_forever]. *)
Definition hang_setting (environ : gmap string string) : bool :=
  bool_decide (str_lower (environ_get environ "MCP_MOCK_HANG" EmptyString)
                 ∈ ["1"; "true"; "yes"]).

(** The lines written to standard output, and the seconds slept. *)
Definition stdout_of (evs : list event) : list string :=
  omap (fun ev => match ev with Stdout l => Some l | _ => None end) evs.

Definition slept_of (evs : list event) : list Z :=
  omap (fun ev => match ev with Sleep s => Some s | _ => None end) evs.

Definition is_stderr (ev : event) : bool :=
  match ev with Stderr _ => true | _ => false end.

End Server.

(** ** A small runtime for the examples

    It decodes the request lines and configuration texts of [demo_table] as
    Python does, raises [RecursionError] on [deep_text] as Python does, and
    rejects every other text with the diagnostic Python gives for a text that
    does not start a JSON value.  The printers cover the values that occur in
    the examples (no floats, no character that needs an escape). *)
Module Demo.

Definition dq : string := String "034"%char EmptyString.
Definition quoted (s : string) : string := dq +:+ s +:+ dq.

(** [{"jsonrpc": "2.0", <members>}] as text. *)
Definition request_text (members : string) : string :=
  "{" +:+ quoted "jsonrpc" +:+ ": " +:+ quoted "2.0" +:+ ", " +:+ members +:+ "}".
Definition member (k v : string) : string := quoted k +:+ ": " +:+ v.

Definition ping_call : string :=
  request_text (member "id" "1" +:+ ", " +:+ member "method" (quoted "ping")).
Definition fail_call : string :=
  request_text (member "id" (quoted "a") +:+ ", " +:+ member "method" (quoted "fail")).
Definition whatever_call : string :=
  request_text (member "id" "2" +:+ ", " +:+ member "method" (quoted "whatever")).
Definition notify : string :=
  request_text (member "method" (quoted "notify")).
Definition null_id_call : string :=
  request_text (member "id" "null" +:+ ", " +:+ member "method" (quoted "ping")).
Definition zero_id_call : string :=
  request_text (member "id" "0" +:+ ", " +:+ member "method" (quoted "ping")).
Definition false_id_call : string :=
  request_text (member "id" "false" +:+ ", " +:+ member "method" (quoted "ping")).
Definition empty_id_call : string :=
  request_text (member "id" (quoted EmptyString) +:+ ", " +:+ member "method" (quoted "ping")).
Definition no_method_call : string :=
  request_text (member "id" "3").
Definition list_method_call : string :=
  request_text (member "id" "4" +:+ ", " +:+ member "method" "[1]").
Definition zero_id_list_method_call : string :=
  request_text (member "id" "0" +:+ ", " +:+ member "method" "[1]").

(** ['[' * 1000]: a thousand opening brackets. *)
Fixpoint repeat_char (c : ascii) (n : nat) : string :=
  match n with
  | O => EmptyString
  | S n' => String c (repeat_char c n')
  end.
Definition deep_text : string := repeat_char "["%char 1000.

(** Configuration texts. *)
Definition ping_pong : string := "{" +:+ member "ping" (quoted "pong") +:+ "}".
Definition fail_boom : string :=
  "{" +:+ member "fail" ("[123, " +:+ quoted "boom" +:+ "]") +:+ "}".
Definition ping_errors : string :=
  "{" +:+ member "ping" ("{" +:+ member "code" "-1" +:+ "}") +:+ ", "
      +:+ member "fail" (quoted "down") +:+ ", "
      +:+ member "short" "[7]" +:+ "}".

Definition rpc (members : list (string * json)) : json :=
  JDict (("jsonrpc", JString "2.0") :: members).

Definition demo_table : list (string * json) :=
  [ ("{}", JDict []);
    ("5", JInt 5);
    ("[1, 2]", JList [JInt 1; JInt 2]);
    (ping_call, rpc [("id", JInt 1); ("method", JString "ping")]);
    (fail_call, rpc [("id", JString "a"); ("method", JString "fail")]);
    (whatever_call, rpc [("id", JInt 2); ("method", JString "whatever")]);
    (notify, rpc [("method", JString "notify")]);
    (null_id_call, rpc [("id", JNull); ("method", JString "ping")]);
    (zero_id_call, rpc [("id", JInt 0); ("method", JString "ping")]);
    (false_id_call, rpc [("id", JBool false); ("method", JString "ping")]);
    (empty_id_call, rpc [("id", JString EmptyString); ("method", JString "ping")]);
    (no_method_call, rpc [("id", JInt 3)]);
    (list_method_call, rpc [("id", JInt 4); ("method", JList [JInt 1])]);
    (zero_id_list_method_call, rpc [("id", JInt 0); ("method", JList [JInt 1])]);
    (ping_pong, JDict [("ping", JString "pong")]);
    (fail_boom, JDict [("fail", JList [JInt 123; JString "boom"])]);
    (ping_errors, JDict [("ping", JDict [("code", JInt (-1))]);
                         ("fail", JString "down");
                         ("short", JList [JInt 7])]) ].

(** The decoded form of some of the texts above. *)
Definition ping_request : list (string * json) :=
  [("jsonrpc", JString "2.0"); ("id", JInt 1); ("method", JString "ping")].
Definition demo_responses : list (string * json) := [("ping", JString "pong")].
Definition demo_errors : list (string * json) :=
  [("ping", JDict [("code", JInt (-1))]); ("fail", JString "down"); ("short", JList [JInt 7])].
Definition boom_errors : list (string * json) :=
  [("fail", JList [JInt 123; JString "boom"])].

(** Environments. *)
Definition hang_environ : gmap string string := {[ "MCP_MOCK_HANG" := "TRUE" ]}.
Definition negative_delay_environ : gmap string string := {[ "MCP_MOCK_DELAY" := "-5" ]}.
Definition number_environ : gmap string string :=
  <[ "MCP_MOCK_HANG" := "1" ]> {[ "MCP_MOCK_RESPONSES" := "5" ]}.
Definition deep_environ : gmap string string := {[ "MCP_MOCK_RESPONSES" := deep_text ]}.

Definition demo_loads (text : string) : outcome json :=
  if String.eqb text deep_text then Raise RecursionError else
  match dict_lookup text demo_table with
  | Some v => Return v
  | None => Raise (JSONDecodeError "Expecting value: line 1 column 1 (char 0)")
  end.

Definition demo_int (text : string) : option Z :=
  if String.eqb text "0" then Some 0
  else if String.eqb text "3" then Some 3
  else if String.eqb text "-5" then Some (-5)
  else None.

Fixpoint demo_dumps (v : json) : string :=
  match v with
  | JNull => "null"
  | JBool b => if b then "true" else "false"
  | JInt n => pretty n
  | JFloat _ => "NaN"
  | JString s => quoted s
  | JList l => "[" +:+ String.concat ", " (map demo_dumps l) +:+ "]"
  | JDict d =>
      "{" +:+ String.concat ", "
                (map (fun kv => quoted (fst kv) +:+ ": " +:+ demo_dumps (snd kv)) d)
          +:+ "}"
  end.

Definition demo_exn_text (e : exn) : string :=
  match e with
  | AttributeError => "object has no attribute 'get'"
  | TypeError => "unsupported operand"
  | IndexError => "list index out of range"
  | KeyError => "key"
  | JSONDecodeError msg => msg
  | RecursionError => "maximum recursion depth exceeded"
  | ValueError => "invalid value"
  | OverflowError => "timestamp too large to convert to C _PyTime_t"
  end.

#[export] Instance demo_runtime : PyRuntime := {|
  json_loads := demo_loads;
  json_dumps := demo_dumps;
  py_int := demo_int;
  float_repr := fun _ => "nan";
  str_repr := fun s => "'" +:+ s +:+ "'";
  exn_text := demo_exn_text;
  json_loads_empty_object := eq_refl;
  py_int_zero := eq_refl;
  json_loads_empty_text := ex_intro _ _ eq_refl
|}.

End Demo.

(** * Vocabulary of the statements *)

(** The events of [if delay_seconds > 0: time.sleep(delay_seconds)], which
    [process_request] runs between decoding a request and looking at its id:
    one sleep, when the delay is positive and [time.sleep] accepts it. *)
Definition delay_events (delay_seconds : Z) : list event :=
  if (0 <? delay_seconds) && (delay_seconds <=? max_sleep) then [Sleep delay_seconds]
  else [].

(** [json.loads] returns on [text], or rejects it with [JSONDecodeError]. *)
Definition loads_or_rejects `{RT : PyRuntime} (text : string) : Prop :=
  (exists v, json_loads text = Return v) \/
  (exists diagnostic, json_loads text = Raise (JSONDecodeError diagnostic)).

(** The same of the JSON setting [name], read as [load_config] reads it. *)
Definition setting_loads `{RT : PyRuntime} (environ : gmap string string)
    (name : string) : Prop :=
  loads_or_rejects (environ_get environ name "{}").

(** The response to a line that is not JSON. *)
Definition parse_error_response (diagnostic : string) : json :=
  error_response JNull (JInt (-32700)) (JString ("Parse error: " +:+ diagnostic)).

(** The members of a response object. *)
Definition response_id (response : json) : option json :=
  match response with JDict f => dict_lookup "id" f | _ => None end.

Definition response_result (response : json) : option json :=
  match response with JDict f => dict_lookup "result" f | _ => None end.

Definition response_error (response : json) : option (json * json) :=
  match response with
  | JDict f =>
      match dict_lookup "error" f with
      | Some (JDict err) =>
          match dict_lookup "code" err, dict_lookup "message" err with
          | Some code, Some message => Some (code, message)
          | _, _ => None
          end
      | _ => None
      end
  | _ => None
  end.

(** [len(v)] is defined: [v] is a dict, a list or a string. *)
Definition sized (v : json) : bool :=
  match v with JDict _ | JList _ | JString _ => true | _ => false end.

(** The variable [name] is unset, or set to the empty text. *)
Definition absent_or_empty (environ : gmap string string) (name : string) : Prop :=
  environ !! name = None \/ environ !! name = Some EmptyString.

(** The variable [name] holds a text that [json.loads] rejects with
    [JSONDecodeError]. *)
Definition malformed `{RT : PyRuntime} (environ : gmap string string) (name : string)
    : Prop :=
  exists text diagnostic,
    environ !! name = Some text /\ text <> EmptyString /\
    json_loads text = Raise (JSONDecodeError diagnostic).

(** [id_missing request]: the [id] member is absent or [null]. *)
Definition id_missing (request : list (string * json)) : Prop :=
  dict_lookup "id" request = None \/ dict_lookup "id" request = Some JNull.

(** [method_of request]: what [request.get('method')] returns. *)
Definition method_of (request : list (string * json)) : json :=
  default JNull (dict_lookup "method" request).

(** [is_key method d]: [method] is one of the keys of the mapping [d]. *)
Definition is_key (method : json) (d : list (string * json)) : Prop :=
  exists m, method = JString m /\ is_Some (dict_lookup m d).

(** [same_but_delay d m m0]: the modes [m] and [m0] are the same, or they
    serve the same mappings with delay [d] and with delay 0. *)
Definition same_but_delay (d : Z) (m m0 : mode) : Prop :=
  m = m0 \/ exists rs es, m = Serving rs es d /\ m0 = Serving rs es 0.


Definition invalid_line_always_answered `{RT : PyRuntime} : Prop :=
  forall line rs es d,
    (forall v, json_loads line <> Return v) ->
    exists response message,
      snd (process_request line rs es d) = Return (Some response) /\
      response_id response = Some JNull /\
      response_error response = Some (JInt (-32700), JString message).

Definition load_config_always_returns `{RT : PyRuntime} : Prop :=
  forall environ, exists evs cfg, load_config environ = (evs, Return cfg).

Definition hang_forever_always_hangs `{RT : PyRuntime} : Prop :=
  forall environ stdin evs cfg n,
    load_config environ = (evs, Return cfg) ->
    hang_forever cfg = true ->
    proc_mode (main environ stdin n) = Hanging.



(** ** A second example runtime

    [Demo.demo_runtime] with two more request lines: a call of [ping] with
    id 1 that has no [jsonrpc] member and carries parameters, and a line of
    JSON text that is a number. *)
Module Demo2.

Definition bare_ping_call : string :=
  "{" +:+ Demo.member "id" "1" +:+ ", " +:+ Demo.member "method" (Demo.quoted "ping")
      +:+ ", " +:+ Demo.member "params" "[1, 2]" +:+ "}".

Definition bare_ping_request : list (string * json) :=
  [("id", JInt 1); ("method", JString "ping"); ("params", JList [JInt 1; JInt 2])].

Definition loads (text : string) : outcome json :=
  if String.eqb text bare_ping_call then Return (JDict bare_ping_request)
  else Demo.demo_loads text.

#[export] Instance runtime : PyRuntime := {|
  json_loads := loads;
  json_dumps := Demo.demo_dumps;
  py_int := Demo.demo_int;
  float_repr := fun _ => "nan";
  str_repr := fun s => "'" +:+ s +:+ "'";
  exn_text := Demo.demo_exn_text;
  json_loads_empty_object := eq_refl;
  py_int_zero := eq_refl;
  json_loads_empty_text := ex_intro _ _ eq_refl
|}.

End Demo2.

(** ** The serving loop on a finite input *)

Section Loop.
Context `{RT : PyRuntime}.

(** The [for] loop of [main] run to its end on the lines of [stdin]: the
    events it performs and the lines it leaves unread (none, unless an
    exception ends the loop). *)
Fixpoint serve_all (stdin : list string) (responses errors : json) (delay_seconds : Z)
    : list event * list string :=
  match stdin with
  | [] => ([], [])
  | line :: rest =>
      match serve_line line responses errors delay_seconds with
      | (evs, Return _) =>
          let '(evs', unread) := serve_all rest responses errors delay_seconds in
          (evs ++ evs', unread)
      | (evs, Raise e) =>
          (evs ++ [Stderr ("Mock server error: " +:+ exn_text e)], rest)
      end
  end.

(** No line of [stdin] makes the loop body raise. *)
Definition completes (stdin : list string) (responses errors : json) (delay_seconds : Z)
    : Prop :=
  Forall (fun line => snd (serve_line line responses errors delay_seconds) = Return tt)
         stdin.

(** [line] is the text [json.dumps] gives for a response object. *)
Definition response_line (line : string) : Prop :=
  exists id,
    (exists code message, line = json_dumps (error_response id code message)) \/
    (exists result, line = json_dumps (result_response id result)).

End Loop.

(** A line the loop skips: nothing is left of it once stripped. *)
Definition blank (line : string) : bool := negb (nonempty (str_strip line)).

(** A response object: one of the two shapes [process_request] builds. *)
Definition is_response (response : json) : Prop :=
  exists id,
    (exists code message, response = error_response id code message) \/
    (exists result, response = result_response id result).

(** The mode [main] starts in for a loaded configuration. *)
Definition start_mode (cfg : config) : mode :=
  if sized (responses cfg) && sized (errors cfg) then
    if hang_forever cfg then Hanging
    else Serving (responses cfg) (errors cfg) (delay_seconds cfg)
  else Crashed TypeError.

(** ** The table of [verify_routellm.py]

    The first column of the table [main] prints: the prompt, cut to 57
    characters and an ellipsis when it is longer than 60, in a cell of
    width 60. *)
Module RouteLLM.

(** [s[:n]]. *)
Fixpoint py_take (n : nat) (s : string) : string :=
  match n, s with
  | S n', String c s' => String c (py_take n' s')
  | _, _ => EmptyString
  end.

(** [truncated = prompt[:57] + "..." if len(prompt) > 60 else prompt]. *)
Definition truncated (prompt : string) : string :=
  if (60 <? String.length prompt)%nat then py_take 57 prompt +:+ "..." else prompt.

(** [f"{s:<width}"]: [s] padded with spaces on the right up to [width]. *)
Fixpoint spaces (n : nat) : string :=
  match n with
  | O => EmptyString
  | S n' => String " "%char (spaces n')
  end.

Definition ljust (width : nat) (s : string) : string :=
  s +:+ spaces (width - String.length s).

Definition prompt_cell (prompt : string) : string := ljust 60 (truncated prompt).

End RouteLLM.

Arguments py_in : simpl never.
Arguments py_getitem : simpl never.
Arguments py_str : simpl never.
Arguments is_none : simpl never.

Ltac py_unfold :=
  unfold process_request, serve_line, py_get, py_in, py_getitem, py_len,
    mbind, M_bind, mret, M_ret, bind, ret, raise, emit, delay_events in *.


(** * Properties *)

Section Properties.
Context `{RT : PyRuntime}.

Lemma prefix_nil (s : string) : String.prefix EmptyString s = true.
Proof. by destruct s. Qed.

Lemma prefix_refl (s : string) : String.prefix s s = true.
Proof.
  induction s as [|c s IH]; simpl; [done|].
  destruct (ascii_dec c c) as [_|Hne]; [exact IH | by destruct Hne].
Qed.

Lemma substringb_refl (s : string) : substringb s s = true.
Proof. destruct s; [done|]. cbn [substringb]. by rewrite prefix_refl. Qed.

Lemma substringb_suffix (p s : string) : substringb s (p +:+ s) = true.
Proof.
  induction p as [|c p IH]; [apply substringb_refl|].
  change (String c p +:+ s) with (String c (p +:+ s)).
  cbn [substringb]. rewrite IH. apply orb_true_r.
Qed.

Lemma py_in_silent (x c : json) : fst (py_in x c) = [].
Proof. by destruct c, x. Qed.

Lemma py_getitem_silent (c k : json) : fst (py_getitem c k) = [].
Proof.
  destruct c; try done; unfold py_getitem.
  - destruct (as_int k); [|done].
    destruct (seq_index _ _); [|done]. by destruct (String.get _ _).
  - destruct (as_int k); [|done].
    destruct (seq_index _ _); [|done]. by destruct (_ !! _).
  - destruct k; try done. by destruct (dict_lookup _ _).
Qed.


(** The delay step sleeps, or does nothing, for the delays [time.sleep]
    accepts, and raises for the others. *)
Lemma delay_step (d : Z) :
  (if 0 <? d then py_sleep d else mret tt)
  = if d <=? max_sleep then (delay_events d, Return tt) else ([], Raise OverflowError).
Proof.
  unfold py_sleep, delay_events.
  destruct (0 <? d) eqn:Hpos, (d <=? max_sleep) eqn:Hmax; simpl; try done.
  - assert ((d <? - max_sleep) = false) as -> by (unfold max_sleep in *; lia).
    assert ((max_sleep <? d) = false) as -> by lia.
    by assert ((d <? 0) = false) as -> by lia.
  - assert ((max_sleep <? d) = true) as -> by lia. by rewrite orb_true_r.
  - unfold max_sleep in *. lia.
Qed.


Lemma delay_events_refused (d : Z) : max_sleep < d -> delay_events d = [].
Proof.
  intros Hmax. unfold delay_events.
  assert ((d <=? max_sleep) = false) as -> by lia. by rewrite andb_false_r.
Qed.

(** A request object is processed past the delay; the rest depends on
    the id only through [is_none]. *)
Lemma process_request_notification line request rs es d :
  json_loads line = Return (JDict request) ->
  id_missing request ->
  d <= max_sleep ->
  process_request line rs es d = (delay_events d, Return None).
Proof.
  intros Hdec Hid Hd. unfold process_request. rewrite Hdec, delay_step.
  assert ((d <=? max_sleep) = true) as -> by lia.
  unfold py_get, mbind, M_bind, mret, M_ret, bind, ret.
  assert (default JNull (dict_lookup "id" request) = JNull) as ->
    by (destruct Hid as [-> | ->]; done).
  simpl. by rewrite app_nil_r.
Qed.

(** A line that decodes to something other than an object fails at
    [request.get], before the delay. *)
Lemma non_object_line_raises line v rs es d :
  json_loads line = Return v ->
  (forall fields, v <> JDict fields) ->
  process_request line rs es d = ([], Raise AttributeError).
Proof.
  intros Hdec Hv. unfold process_request. rewrite Hdec.
  destruct v; try done. by destruct (Hv fields).
Qed.

(** A request object with a delay that [time.sleep] refuses: the exception
    leaves [process_request] before anything is slept or looked up. *)
Lemma process_request_overflow line request rs es d :
  json_loads line = Return (JDict request) ->
  max_sleep < d ->
  process_request line rs es d = ([], Raise OverflowError).
Proof.
  intros Hdec Hd. unfold process_request. rewrite Hdec, delay_step.
  by assert ((d <=? max_sleep) = false) as -> by lia.
Qed.

(** An exception of [json.loads] other than [JSONDecodeError] leaves
    [process_request]. *)
Lemma process_request_undecoded line e rs es d :
  json_loads line = Raise e ->
  (forall diagnostic, e <> JSONDecodeError diagnostic) ->
  process_request line rs es d = ([], Raise e).
Proof.
  intros Hdec He. unfold process_request. rewrite Hdec.
  destruct e; try done. by destruct (He msg).
Qed.

(** What one turn of the serving loop does with the outcome of the loop
    body. *)
Lemma step_serving raw rest rs es d trace evs :
  serve_line raw rs es d = (evs, Return tt) ->
  step (Process (Serving rs es d) (raw :: rest) trace)
  = Some (Process (Serving rs es d) rest (trace ++ evs)).
Proof. intros Hs. unfold step. simpl. by rewrite Hs. Qed.


(** ** Calls *)

Lemma is_none_false (v : json) : v <> JNull -> is_none v = false.
Proof. by destruct v. Qed.

Lemma py_in_key (m : string) (d : list (string * json)) (v : json) :
  dict_lookup m d = Some v -> py_in (JString m) (JDict d) = ret true.
Proof. intros H. unfold py_in. by rewrite H. Qed.

Lemma py_in_absent (m : string) (d : list (string * json)) :
  dict_lookup m d = None -> py_in (JString m) (JDict d) = ret false.
Proof. intros H. unfold py_in. by rewrite H. Qed.

Lemma py_getitem_key (m : string) (d : list (string * json)) (v : json) :
  dict_lookup m d = Some v -> py_getitem (JDict d) (JString m) = ret v.
Proof. intros H. unfold py_getitem. by rewrite H. Qed.

(** A call whose method is bound in [errors]: the response is the error
    built from the bound descriptor, whatever [responses] holds. *)
Lemma process_request_error_entry line request req_id m e rs d data :
  json_loads line = Return (JDict request) ->
  dict_lookup "id" request = Some req_id ->
  req_id <> JNull ->
  dict_lookup "method" request = Some (JString m) ->
  dict_lookup m e = Some data ->
  d <= max_sleep ->
  process_request line rs (JDict e) d =
    (delay_events d,
     Return (Some
       match data with
       | JList (e0 :: e1 :: _) => error_response req_id e0 e1
       | JDict f =>
           error_response req_id
             (default (JInt (-32603)) (dict_lookup "code" f))
             (default (JString "Internal error") (dict_lookup "message" f))
       | _ => error_response req_id (JInt (-32603)) (JString (py_str data))
       end)).
Proof.
  intros Hdec Hid Hnn Hm He Hd. unfold process_request. rewrite Hdec, delay_step.
  assert ((d <=? max_sleep) = true) as -> by lia.
  unfold py_get, mbind, M_bind, mret, M_ret. rewrite Hid, Hm. cbn.
  rewrite (is_none_false _ Hnn), (py_in_key _ _ _ He), (py_getitem_key _ _ _ He).
  destruct data as [| | | | |[|e0 [|e1 l]]|]; cbn; by rewrite app_nil_r.
Qed.

(** A call whose method is no key of [errors] falls through to
    [responses]. *)
Lemma py_in_not_key (method : json) (d : list (string * json)) :
  hashable method = true -> ~ is_key method d ->
  py_in method (JDict d) = ret false.
Proof.
  intros Hh Hk. destruct method; try done.
  apply py_in_absent. destruct (dict_lookup s d) eqn:Hs; [|done].
  exfalso. apply Hk. exists s. by rewrite Hs.
Qed.

Lemma process_request_result_entry line request req_id m e r d payload :
  json_loads line = Return (JDict request) ->
  dict_lookup "id" request = Some req_id ->
  req_id <> JNull ->
  dict_lookup "method" request = Some (JString m) ->
  dict_lookup m e = None ->
  dict_lookup m r = Some payload ->
  d <= max_sleep ->
  process_request line (JDict r) (JDict e) d =
    (delay_events d, Return (Some (result_response req_id payload))).
Proof.
  intros Hdec Hid Hnn Hm He Hr Hd. unfold process_request. rewrite Hdec, delay_step.
  assert ((d <=? max_sleep) = true) as -> by lia.
  unfold py_get, mbind, M_bind, mret, M_ret. rewrite Hid, Hm. cbn.
  rewrite (is_none_false _ Hnn), (py_in_absent _ _ He).
  rewrite (py_in_key _ _ _ Hr), (py_getitem_key _ _ _ Hr).
  simpl. by rewrite app_nil_r.
Qed.

Lemma process_request_not_found line request req_id e r d :
  json_loads line = Return (JDict request) ->
  dict_lookup "id" request = Some req_id ->
  req_id <> JNull ->
  hashable (method_of request) = true ->
  ~ is_key (method_of request) e ->
  ~ is_key (method_of request) r ->
  d <= max_sleep ->
  process_request line (JDict r) (JDict e) d =
    (delay_events d,
     Return (Some (error_response req_id (JInt (-32601))
                     (JString ("Method not found: " +:+ py_str (method_of request)))))).
Proof.
  intros Hdec Hid Hnn Hh He Hr Hd.
  pose proof (py_in_not_key _ e Hh He) as Hine.
  pose proof (py_in_not_key _ r Hh Hr) as Hinr.
  unfold process_request. rewrite Hdec, delay_step.
  assert ((d <=? max_sleep) = true) as -> by lia.
  unfold py_get, mbind, M_bind, mret, M_ret, bind at 1 2.
  fold (method_of request). rewrite Hid. cbn.
  rewrite (is_none_false _ Hnn), Hine, Hinr.
  simpl. by rewrite app_nil_r.
Qed.

(** Whatever becomes of a request object, the events of its processing are
    those of the delay. *)
Lemma process_request_object_trace line request rs es d :
  json_loads line = Return (JDict request) ->
  fst (process_request line rs es d) = delay_events d.
Proof.
  intros Hdec.
  destruct (Z.le_gt_cases d max_sleep) as [Hd | Hd].
  2: { rewrite (process_request_overflow line request rs es d Hdec Hd).
       by rewrite delay_events_refused. }
  unfold process_request. rewrite Hdec, delay_step.
  assert ((d <=? max_sleep) = true) as -> by lia.
  unfold py_get, mbind, M_bind, mret, M_ret. cbn.
  set (method := default JNull (dict_lookup "method" request)).
  set (req_id := default JNull (dict_lookup "id" request)).
  assert (forall (A : Type) (m : M A), fst m = [] -> exists o, m = ([], o)) as Hsil.
  { intros A [evs o] Hevs. simpl in Hevs. subst. eauto. }
  destruct (Hsil _ _ (py_in_silent method es)) as [oe ->].
  destruct (Hsil _ _ (py_in_silent method rs)) as [or ->].
  destruct (Hsil _ _ (py_getitem_silent es method)) as [ge ->].
  destruct (Hsil _ _ (py_getitem_silent rs method)) as [gr ->].
  destruct (is_none req_id); cbn; [by rewrite app_nil_r|].
  destruct oe as [[]|]; cbn; try by rewrite app_nil_r.
  - destruct ge as [v|]; cbn; [|by rewrite app_nil_r].
    destruct v as [| | | | |[|e0 [|e1 l]]|]; cbn; by rewrite app_nil_r.
  - destruct or as [[]|]; cbn; try by rewrite app_nil_r.
    destruct gr; cbn; by rewrite app_nil_r.
Qed.

(** What the loop body does with the outcome of [process_request]. *)
Lemma serve_line_response raw rs es d evs resp :
  nonempty (str_strip raw) = true ->
  process_request (str_strip raw) rs es d = (evs, Return (Some resp)) ->
  serve_line raw rs es d = (evs ++ [Stdout (json_dumps resp)], Return tt).
Proof.
  intros Hne Hpr. unfold serve_line. rewrite Hne. simpl.
  unfold mbind, M_bind, bind. by rewrite Hpr.
Qed.

(** A request object whose processing returns had a delay that [time.sleep]
    accepts. *)
Lemma returned_after_delay line request rs es d o :
  json_loads line = Return (JDict request) ->
  snd (process_request line rs es d) = Return o ->
  d <= max_sleep.
Proof.
  intros Hdec Hret. destruct (Z.le_gt_cases d max_sleep) as [Hd | Hd]; [done|].
  by rewrite (process_request_overflow line request rs es d Hdec Hd) in Hret.
Qed.


(** [C2] A line on which [json.loads] raises [JSONDecodeError] gets, under
    every configuration, one error response: its id is null, its code is
    -32700 and its message is ["Parse error: "] followed by the decoder's
    diagnostic.  No delay is applied; when the line is not empty the loop
    body writes the response as its one output line and the loop goes on (a
    line that is empty after stripping never reaches [process_request]). *)
Theorem parse_error_always_answered line diagnostic rs es d :
  json_loads line = Raise (JSONDecodeError diagnostic) ->
  exists response message,
    process_request line rs es d = ([], Return (Some response)) /\
    response_id response = Some JNull /\
    response_error response = Some (JInt (-32700), JString message) /\
    response_result response = None /\
    message = "Parse error: " +:+ diagnostic /\
    String.prefix "Parse error: " message = true /\
    substringb diagnostic message = true /\
    forall raw, str_strip raw = line -> nonempty line = true ->
      serve_line raw rs es d = ([Stdout (json_dumps response)], Return tt) /\
      forall rest trace,
        step (Process (Serving rs es d) (raw :: rest) trace)
        = Some (Process (Serving rs es d) rest (trace ++ [Stdout (json_dumps response)])).
Proof.
  intros Hdec.
  assert (process_request line rs es d
          = ([], Return (Some (parse_error_response diagnostic)))) as Hpr.
  { unfold process_request. by rewrite Hdec. }
  exists (parse_error_response diagnostic), ("Parse error: " +:+ diagnostic).
  do 5 (split; [done|]).
  split; [apply prefix_nil|]. split; [apply substringb_suffix|].
  intros raw <- Hne.
  pose proof (serve_line_response raw rs es d [] _ Hne Hpr) as Hloop.
  split; [exact Hloop|]. intros rest trace. by apply step_serving.
Qed.



(** A method that is a list or a dict cannot be looked up. *)
Lemma unhashable_method_raises line request req_id e rs d :
  json_loads line = Return (JDict request) ->
  dict_lookup "id" request = Some req_id ->
  req_id <> JNull ->
  hashable (method_of request) = false ->
  d <= max_sleep ->
  process_request line rs (JDict e) d = (delay_events d, Raise TypeError).
Proof.
  intros Hdec Hid Hnn Hh Hd. unfold process_request. rewrite Hdec, delay_step.
  assert ((d <=? max_sleep) = true) as -> by lia.
  unfold py_get, mbind, M_bind, mret, M_ret, bind at 1 2.
  fold (method_of request). rewrite Hid. cbn.
  rewrite (is_none_false _ Hnn).
  destruct (method_of request); try done; simpl; by rewrite app_nil_r.
Qed.





(** ** Configuration *)

Lemma load_config_blocks (environ : gmap string string) :
  load_config environ =
    (rs ← json_setting "MCP_MOCK_RESPONSES"
            (environ_get environ "MCP_MOCK_RESPONSES" "{}");
     es ← json_setting "MCP_MOCK_ERRORS"
            (environ_get environ "MCP_MOCK_ERRORS" "{}");
     d ← delay_setting (environ_get environ "MCP_MOCK_DELAY" "0");
     mret (Config rs es d (hang_setting environ))).
Proof. reflexivity. Qed.

(** How the block of a JSON setting ends: with a value, after at most one
    diagnostic, or with the exception of [json.loads] when that is not a
    [JSONDecodeError]. *)
Lemma json_setting_outcome (name text : string) :
  (exists evs v,
     json_setting name text = (evs, Return v) /\
     (evs = [] \/ evs = [Stderr ("ERROR: Invalid " +:+ name +:+ " JSON")]) /\
     (text = EmptyString -> v = JDict [] /\ evs = []) /\
     (forall diagnostic, json_loads text = Raise (JSONDecodeError diagnostic) ->
        v = JDict [] /\
        (text <> EmptyString -> evs = [Stderr ("ERROR: Invalid " +:+ name +:+ " JSON")])) /\
     (forall v', json_loads text = Return v' -> v = v' /\ evs = [])) \/
  (exists e,
     json_setting name text = ([], Raise e) /\
     text <> EmptyString /\
     json_loads text = Raise e /\
     forall diagnostic, e <> JSONDecodeError diagnostic).
Proof.
  unfold json_setting. destruct text as [|c text].
  - destruct json_loads_empty_text as [msg Hmsg]. left.
    exists [], (JDict []). rewrite Hmsg. simpl. repeat split; auto; congruence.
  - simpl nonempty. cbv iota. destruct (json_loads (String c text)) as [v|e].
    + left. eexists _, _. split; [reflexivity|]. repeat split; auto; congruence.
    + destruct e.
      5: { left. eexists _, _. split; [reflexivity|]. repeat split; auto; congruence. }
      all: right; eexists; repeat split; done.
Qed.

Lemma json_setting_returns (name text : string) :
  loads_or_rejects text ->
  exists evs v,
    json_setting name text = (evs, Return v) /\
    (evs = [] \/ evs = [Stderr ("ERROR: Invalid " +:+ name +:+ " JSON")]) /\
    (text = EmptyString -> v = JDict [] /\ evs = []) /\
    (forall diagnostic, json_loads text = Raise (JSONDecodeError diagnostic) ->
       v = JDict [] /\
       (text <> EmptyString -> evs = [Stderr ("ERROR: Invalid " +:+ name +:+ " JSON")])) /\
    (forall v', json_loads text = Return v' -> v = v' /\ evs = []).
Proof.
  intros Hloads.
  destruct (json_setting_outcome name text) as [Hret | (e & _ & _ & He & Hother)];
    [exact Hret|].
  destruct Hloads as [[v Hv] | [diagnostic Hd]]; [congruence|].
  rewrite Hd in He. injection He as <-. by destruct (Hother diagnostic).
Qed.

Lemma json_setting_quiet (name text : string) :
  forallb is_stderr (fst (json_setting name text)) = true.
Proof.
  destruct (json_setting_outcome name text)
    as [(evs & v & -> & [-> | ->] & _) | (e & -> & _)]; done.
Qed.

Lemma delay_setting_returns (text : string) :
  exists evs d,
    delay_setting text = (evs, Return d) /\
    (forall n, py_int text = Some n -> d = n /\ evs = []) /\
    (py_int text = None ->
       d = 0 /\ evs = [Stderr ("ERROR: Invalid MCP_MOCK_DELAY value: " +:+ text)]).
Proof.
  unfold delay_setting. destruct (py_int text) as [n|].
  - exists [], n. repeat split; auto; congruence.
  - eexists _, _. split; [reflexivity|]. split; [congruence|done].
Qed.

Lemma delay_setting_quiet (text : string) :
  forallb is_stderr (fst (delay_setting text)) = true.
Proof. unfold delay_setting. by destruct (py_int text). Qed.

(** Whatever [load_config] writes goes to the error stream. *)
Lemma load_config_quiet (environ : gmap string string) :
  forallb is_stderr (fst (load_config environ)) = true.
Proof.
  rewrite load_config_blocks. unfold mbind, M_bind, bind.
  pose proof (json_setting_quiet "MCP_MOCK_RESPONSES"
                (environ_get environ "MCP_MOCK_RESPONSES" "{}")) as Hr.
  pose proof (json_setting_quiet "MCP_MOCK_ERRORS"
                (environ_get environ "MCP_MOCK_ERRORS" "{}")) as He.
  pose proof (delay_setting_quiet (environ_get environ "MCP_MOCK_DELAY" "0")) as Hd.
  destruct (json_setting "MCP_MOCK_RESPONSES" _) as [evr [rs|e]]; [|done].
  destruct (json_setting "MCP_MOCK_ERRORS" _) as [eve [es|e]]; simpl in *.
  2: { by rewrite forallb_app, Hr, He. }
  destruct (delay_setting _) as [evd [d|e]]; simpl in *.
  - by rewrite !forallb_app, Hr, He, Hd.
  - by rewrite !forallb_app, Hr, He, Hd.
Qed.

(** [load_config] returns when [json.loads] returns or raises
    [JSONDecodeError] on its two JSON settings. *)
Lemma load_config_returns (environ : gmap string string) :
  setting_loads environ "MCP_MOCK_RESPONSES" ->
  setting_loads environ "MCP_MOCK_ERRORS" ->
  exists evs cfg,
    load_config environ = (evs, Return cfg) /\
    forallb is_stderr evs = true.
Proof.
  intros Hlr Hle.
  destruct (json_setting_returns "MCP_MOCK_RESPONSES" _ Hlr) as (evr & rs & Hr & _).
  destruct (json_setting_returns "MCP_MOCK_ERRORS" _ Hle) as (eve & es & He & _).
  destruct (delay_setting_returns (environ_get environ "MCP_MOCK_DELAY" "0"))
    as (evd & d & Hd & _).
  pose proof (load_config_quiet environ) as Hq.
  exists (evr ++ eve ++ evd), (Config rs es d (hang_setting environ)).
  assert (load_config environ
          = (evr ++ eve ++ evd, Return (Config rs es d (hang_setting environ)))) as Hload.
  { rewrite load_config_blocks. unfold mbind, M_bind, bind. rewrite Hr, He, Hd.
    simpl. by rewrite app_nil_r. }
  split; [exact Hload|]. by rewrite Hload in Hq.
Qed.

(** An exception of [json.loads] other than [JSONDecodeError], raised on a
    JSON setting that [load_config] reaches, leaves [load_config] and
    [main]: the process ends before the startup summary. *)
Lemma undecoded_setting_crashes (environ : gmap string string) name text e :
  name = "MCP_MOCK_RESPONSES" \/
  (name = "MCP_MOCK_ERRORS" /\ setting_loads environ "MCP_MOCK_RESPONSES") ->
  environ !! name = Some text ->
  text <> EmptyString ->
  json_loads text = Raise e ->
  (forall diagnostic, e <> JSONDecodeError diagnostic) ->
  exists evs,
    load_config environ = (evs, Raise e) /\
    forall stdin n, main environ stdin n = Process (Crashed e) stdin evs.
Proof.
  intros Hname Htext Hne Hdec Hother.
  assert (json_setting name (environ_get environ name "{}") = ([], Raise e)) as Hset.
  { unfold environ_get. rewrite Htext. simpl. unfold json_setting.
    destruct text as [|c text]; [done|]. simpl nonempty. cbv iota. rewrite Hdec.
    destruct e; try done. by destruct (Hother msg). }
  assert (exists evs, load_config environ = (evs, Raise e)) as [evs Hload].
  { rewrite load_config_blocks. unfold mbind, M_bind, bind.
    destruct Hname as [-> | [-> Hlr]].
    - rewrite Hset. eauto.
    - destruct (json_setting_returns "MCP_MOCK_RESPONSES" _ Hlr) as (evr & rs & -> & _).
      rewrite Hset. eauto. }
  exists evs. split; [exact Hload|]. intros stdin n.
  assert (main_start environ stdin = Process (Crashed e) stdin evs) as Hstart.
  { unfold main_start, startup, mbind, M_bind, bind. by rewrite Hload. }
  unfold main. rewrite Hstart. by destruct n.
Qed.

(** [C7] [load_config] returns a configuration, and writes to the error
    stream only, for every environment in which [json.loads] returns or
    raises [JSONDecodeError] on the two JSON settings.  An unset or empty
    JSON variable gives the empty mapping; a text that is not JSON gives the
    empty mapping and a diagnostic; an unset delay gives 0; a delay text
    that is no integer gives 0 and a diagnostic. *)
Theorem load_config_never_fails (environ : gmap string string) :
  setting_loads environ "MCP_MOCK_RESPONSES" ->
  setting_loads environ "MCP_MOCK_ERRORS" ->
  exists evs cfg,
    load_config environ = (evs, Return cfg) /\
    forallb is_stderr evs = true /\
    (absent_or_empty environ "MCP_MOCK_RESPONSES" -> responses cfg = JDict []) /\
    (malformed environ "MCP_MOCK_RESPONSES" ->
       responses cfg = JDict [] /\
       Stderr "ERROR: Invalid MCP_MOCK_RESPONSES JSON" ∈ evs) /\
    (absent_or_empty environ "MCP_MOCK_ERRORS" -> errors cfg = JDict []) /\
    (malformed environ "MCP_MOCK_ERRORS" ->
       errors cfg = JDict [] /\
       Stderr "ERROR: Invalid MCP_MOCK_ERRORS JSON" ∈ evs) /\
    (environ !! "MCP_MOCK_DELAY" = None -> delay_seconds cfg = 0) /\
    (forall text, environ !! "MCP_MOCK_DELAY" = Some text -> py_int text = None ->
       delay_seconds cfg = 0 /\
       Stderr ("ERROR: Invalid MCP_MOCK_DELAY value: " +:+ text) ∈ evs).
Proof.
  intros Hlr Hle.
  destruct (json_setting_returns "MCP_MOCK_RESPONSES" _ Hlr)
    as (evr & rs & Hr & Hevr & Hr_empty & Hr_bad & Hr_good).
  destruct (json_setting_returns "MCP_MOCK_ERRORS" _ Hle)
    as (eve & es & He & Heve & He_empty & He_bad & He_good).
  destruct (delay_setting_returns (environ_get environ "MCP_MOCK_DELAY" "0"))
    as (evd & d & Hd & Hd_int & Hd_bad).
  exists (evr ++ eve ++ evd), (Config rs es d (hang_setting environ)).
  split.
  { rewrite load_config_blocks. unfold mbind, M_bind, bind. rewrite Hr, He, Hd.
    simpl. by rewrite app_nil_r. }
  split.
  { rewrite !forallb_app.
    assert (forallb is_stderr evd = true) as ->.
    { destruct (py_int (environ_get environ "MCP_MOCK_DELAY" "0")) as [n|] eqn:Hn.
      - by destruct (Hd_int n eq_refl) as [_ ->].
      - by destruct (Hd_bad eq_refl) as [_ ->]. }
    by destruct Hevr as [-> | ->], Heve as [-> | ->]. }
  clear Hlr Hle. unfold environ_get in *. simpl.
  split; [|split; [|split; [|split; [|split]]]].
  - intros [Habs | Habs]; rewrite Habs in *; simpl in *.
    + by destruct (Hr_good _ json_loads_empty_object).
    + by destruct (Hr_empty eq_refl).
  - intros (text & diagnostic & Htext & Hne & Hbad). rewrite Htext in *. simpl in *.
    destruct (Hr_bad _ Hbad) as [-> Hev]. split; [done|].
    rewrite (Hev Hne), !elem_of_app, !list_elem_of_singleton. auto.
  - intros [Habs | Habs]; rewrite Habs in *; simpl in *.
    + by destruct (He_good _ json_loads_empty_object).
    + by destruct (He_empty eq_refl).
  - intros (text & diagnostic & Htext & Hne & Hbad). rewrite Htext in *. simpl in *.
    destruct (He_bad _ Hbad) as [-> Hev]. split; [done|].
    rewrite (Hev Hne), !elem_of_app, !list_elem_of_singleton. auto.
  - intros Habs. rewrite Habs in *. simpl in *.
    by destruct (Hd_int _ py_int_zero).
  - intros text Htext Hbad. rewrite Htext in *. simpl in *.
    destruct (Hd_bad Hbad) as [-> ->]. split; [done|].
    rewrite !elem_of_app, !list_elem_of_singleton. auto.
Qed.

(** ** Delay *)

Lemma process_request_events line rs es d :
  fst (process_request line rs es d) = [] \/
  fst (process_request line rs es d) = delay_events d.
Proof.
  destruct (json_loads line) as [v|e] eqn:Hdec.
  - destruct v; try (left; unfold process_request; by rewrite Hdec).
    right. by apply (process_request_object_trace line fields).
  - left. unfold process_request. rewrite Hdec. by destruct e.
Qed.

Lemma process_request_nonpositive line rs es d :
  d <= 0 -> process_request line rs es d = process_request line rs es 0.
Proof.
  intros Hd. unfold process_request.
  assert ((0 <? d) = false) as -> by lia. done.
Qed.

Lemma serve_line_nonpositive raw rs es d :
  d <= 0 -> serve_line raw rs es d = serve_line raw rs es 0.
Proof. intros Hd. unfold serve_line. by rewrite process_request_nonpositive. Qed.

(** Two processes that differ in a non-positive delay only, and in what
    they have written so far, stay in step and add the same events. *)
Lemma turn_nonpositive d m m0 stdin :
  d <= 0 ->
  same_but_delay d m m0 ->
  match turn m stdin, turn m0 stdin with
  | Some (m', rest, evs), Some (m0', rest0, evs0) =>
      same_but_delay d m' m0' /\ rest = rest0 /\ evs = evs0
  | None, None => True
  | _, _ => False
  end.
Proof.
  intros Hd [<- | (rs & es & -> & ->)].
  - destruct (turn m stdin) as [[[m' rest] evs]|]; [|done].
    split; [by left|done].
  - simpl. destruct stdin as [|line rest]; [split; [by left|done]|].
    rewrite (serve_line_nonpositive line rs es d Hd).
    destruct (serve_line line rs es 0) as [evs [[]|e]].
    + split; [right; eauto|done].
    + split; [by left|done].
Qed.

Lemma run_nonpositive d (n : nat) :
  d <= 0 ->
  forall m m0 stdin trace trace0,
    same_but_delay d m m0 ->
    exists m' m0' rest evs,
      run n (Process m stdin trace) = Process m' rest (trace ++ evs) /\
      run n (Process m0 stdin trace0) = Process m0' rest (trace0 ++ evs) /\
      same_but_delay d m' m0'.
Proof.
  intros Hd. induction n as [|n IH]; intros m m0 stdin trace trace0 Hsim.
  { exists m, m0, stdin, []. by rewrite !app_nil_r. }
  cbn [run]. unfold step. cbn [proc_mode proc_stdin proc_trace].
  pose proof (turn_nonpositive d m m0 stdin Hd Hsim) as Hturn.
  destruct (turn m stdin) as [[[m' rest] evs]|],
           (turn m0 stdin) as [[[m0' rest0] evs0]|]; try done.
  - destruct Hturn as (Hsim' & <- & <-).
    destruct (IH m' m0' rest (trace ++ evs) (trace0 ++ evs) Hsim')
      as (m1 & m2 & rest' & evs' & -> & -> & Hsim'').
    exists m1, m2, rest', (evs ++ evs'). by rewrite !app_assoc.
  - exists m, m0, stdin, []. by rewrite !app_nil_r.
Qed.

(** ** Startup and the hanging state *)

Lemma stdout_of_stderr (evs : list event) :
  forallb is_stderr evs = true -> stdout_of evs = [].
Proof.
  by induction evs as [|[] evs IH].
Qed.

Lemma stdout_of_app (evs evs' : list event) :
  stdout_of (evs ++ evs') = stdout_of evs ++ stdout_of evs'.
Proof. apply omap_app. Qed.

Lemma stdout_of_sleeps (n : nat) (d : Z) : stdout_of (replicate n (Sleep d)) = [].
Proof. induction n as [|n IH]; simpl; [done|exact IH]. Qed.

(** Once [load_config] has returned, [main] reaches the test of
    [hang_forever] exactly when [len] is defined on both mappings; up to
    there it writes to the error stream only. *)
Lemma startup_outcome (environ : gmap string string) evs0 cfg :
  load_config environ = (evs0, Return cfg) ->
  forallb is_stderr evs0 = true /\
  if sized (responses cfg) && sized (errors cfg)
  then exists summary,
         startup environ = (evs0 ++ summary, Return cfg) /\
         forallb is_stderr (evs0 ++ summary) = true
  else exists evs, startup environ = (evs, Raise TypeError).
Proof.
  intros Hload. pose proof (load_config_quiet environ) as Herr.
  rewrite Hload in Herr. simpl in Herr. split; [exact Herr|].
  unfold startup, mbind, M_bind, bind. rewrite Hload.
  destruct cfg as [rs es d h]. simpl.
  destruct rs; simpl; eauto; destruct es; simpl; eauto.
  all: eexists; split; [reflexivity|]; by rewrite forallb_app, Herr.
Qed.

Lemma run_hanging (n : nat) (stdin : list string) (trace : list event) :
  run n (Process Hanging stdin trace)
  = Process Hanging stdin (trace ++ replicate n (Sleep 1)).
Proof.
  revert trace. induction n as [|n IH]; intros trace; simpl.
  - by rewrite app_nil_r.
  - unfold step. simpl. rewrite IH. by rewrite <- app_assoc.
Qed.

(** [C8] When [load_config] has returned a configuration whose
    [hang_forever] is set and on whose two mappings [len] is defined, [main]
    completes the startup summary and the process is in the hanging state,
    where it stays for any number of turns: it has read no line of standard
    input, has written nothing to standard output, has done nothing but
    sleep one second per turn, and can always take one more turn. *)
Theorem hang_forever_never_serves (environ : gmap string string) stdin evs0 cfg n :
  load_config environ = (evs0, Return cfg) ->
  hang_forever cfg = true ->
  sized (responses cfg) = true ->
  sized (errors cfg) = true ->
  exists summary,
    startup environ = (evs0 ++ summary, Return cfg) /\
    proc_mode (main environ stdin n) = Hanging /\
    proc_stdin (main environ stdin n) = stdin /\
    proc_trace (main environ stdin n)
      = evs0 ++ summary ++ [Stderr "HANGING FOREVER"] ++ replicate n (Sleep 1) /\
    stdout_of (proc_trace (main environ stdin n)) = [] /\
    is_Some (step (main environ stdin n)).
Proof.
  intros Hload Hhang Hrs Hes.
  destruct (startup_outcome environ evs0 cfg Hload) as [_ Hout].
  rewrite Hrs, Hes in Hout. destruct Hout as (summary & Hstart & Herr).
  exists summary. split; [exact Hstart|].
  assert (main environ stdin n
          = Process Hanging stdin
              (evs0 ++ summary ++ [Stderr "HANGING FOREVER"] ++ replicate n (Sleep 1)))
    as ->.
  { unfold main, main_start. rewrite Hstart, Hhang, run_hanging.
    by rewrite <- !app_assoc. }
  simpl. repeat split; try done.
  rewrite app_assoc, stdout_of_app, (stdout_of_stderr _ Herr). simpl.
  apply (stdout_of_sleeps n 1).
Qed.

(** ** A negative delay *)

Lemma slept_of_stderr (evs : list event) :
  forallb is_stderr evs = true -> slept_of evs = [].
Proof. by induction evs as [|[] evs IH]. Qed.

Lemma slept_of_app (evs evs' : list event) :
  slept_of (evs ++ evs') = slept_of evs ++ slept_of evs'.
Proof. apply omap_app. Qed.

(** Loading with the delay variable set to an integer text, and with the
    variable removed: the two end alike, up to the delay returned. *)
Lemma load_config_delay (environ : gmap string string) text z :
  environ !! "MCP_MOCK_DELAY" = Some text ->
  py_int text = Some z ->
  exists evs,
    forallb is_stderr evs = true /\
    (forall t, Stderr ("ERROR: Invalid MCP_MOCK_DELAY value: " +:+ t) ∉ evs) /\
    ((exists rs es,
        load_config environ = (evs, Return (Config rs es z (hang_setting environ))) /\
        load_config (delete "MCP_MOCK_DELAY" environ)
          = (evs, Return (Config rs es 0 (hang_setting environ)))) \/
     (exists e,
        load_config environ = (evs, Raise e) /\
        load_config (delete "MCP_MOCK_DELAY" environ) = (evs, Raise e))).
Proof.
  intros Htext Hint.
  assert (forall evr eve : list event,
            (evr = [] \/ evr = [Stderr "ERROR: Invalid MCP_MOCK_RESPONSES JSON"]) ->
            (eve = [] \/ eve = [Stderr "ERROR: Invalid MCP_MOCK_ERRORS JSON"]) ->
            forallb is_stderr (evr ++ eve) = true /\
            forall t, Stderr ("ERROR: Invalid MCP_MOCK_DELAY value: " +:+ t) ∉ evr ++ eve)
    as Hquiet.
  { intros evr eve Hevr Heve. split.
    - rewrite forallb_app. by destruct Hevr as [-> | ->], Heve as [-> | ->].
    - intros t. rewrite elem_of_app.
      destruct Hevr as [-> | ->], Heve as [-> | ->];
        rewrite ?elem_of_nil, ?list_elem_of_singleton; simpl;
        intros [H | H]; try done; by inversion H. }
  rewrite !load_config_blocks. unfold hang_setting, environ_get in *.
  rewrite lookup_delete_eq, !lookup_delete_ne by done. rewrite Htext. simpl default.
  unfold delay_setting. rewrite Hint, py_int_zero.
  unfold mbind, M_bind, bind.
  destruct (json_setting_outcome "MCP_MOCK_RESPONSES"
              (default "{}" (environ !! "MCP_MOCK_RESPONSES")))
    as [(evr & rs & -> & Hevr & _) | (e & -> & _)].
  2: { exists []. split; [done|]. split; [intros t; apply not_elem_of_nil|].
       right. by exists e. }
  destruct (json_setting_outcome "MCP_MOCK_ERRORS"
              (default "{}" (environ !! "MCP_MOCK_ERRORS")))
    as [(eve & es & -> & Heve & _) | (e & -> & _)].
  2: { destruct (Hquiet evr [] Hevr (or_introl eq_refl)) as [Herr Hno].
       exists (evr ++ []). split; [exact Herr|]. split; [exact Hno|].
       right. by exists e. }
  destruct (Hquiet evr eve Hevr Heve) as [Herr Hno].
  exists (evr ++ eve). split; [exact Herr|]. split; [exact Hno|].
  left. exists rs, es. simpl. by rewrite !app_nil_r.
Qed.

(** The two processes start in step, having written to the error stream
    only. *)
Lemma main_start_delay (environ : gmap string string) text z stdin :
  environ !! "MCP_MOCK_DELAY" = Some text ->
  py_int text = Some z ->
  exists m m0 trace trace0,
    main_start environ stdin = Process m stdin trace /\
    main_start (delete "MCP_MOCK_DELAY" environ) stdin = Process m0 stdin trace0 /\
    same_but_delay z m m0 /\
    forallb is_stderr trace = true /\
    forallb is_stderr trace0 = true.
Proof.
  intros Htext Hint.
  destruct (load_config_delay environ text z Htext Hint)
    as (evs & Herr & _ & [(rs & es & Hload & Hload0) | (e & Hload & Hload0)]).
  2: { unfold main_start, startup, mbind, M_bind, bind. rewrite Hload, Hload0.
       eexists _, _, _, _. repeat split; [by left|done..]. }
  unfold main_start, startup, mbind, M_bind, bind. rewrite Hload, Hload0.
  cbn [responses errors delay_seconds hang_forever].
  destruct rs, es; simpl; try destruct (hang_setting environ);
    eexists _, _, _, _;
    (split; [reflexivity|]); (split; [reflexivity|]);
    (split; [first [by left | right; eauto]|]);
    by rewrite ?app_nil_r, ?forallb_app, Herr.
Qed.

(** [C10] A delay text that [int] reads as a negative number is kept as it
    is, without a diagnostic (when [load_config] returns: [json.loads]
    returns or raises [JSONDecodeError] on the two JSON settings), and is
    never slept.  [process_request] and the serving loop do what they do
    with delay 0, and the whole process reads the same input, writes the
    same lines to standard output and sleeps the same seconds as when the
    variable is unset (the startup summary on the error stream prints the
    delay as loaded). *)
Theorem negative_delay_never_sleeps (environ : gmap string string) text z :
  environ !! "MCP_MOCK_DELAY" = Some text ->
  py_int text = Some z ->
  z < 0 ->
  (setting_loads environ "MCP_MOCK_RESPONSES" ->
   setting_loads environ "MCP_MOCK_ERRORS" ->
   exists evs cfg,
     load_config environ = (evs, Return cfg) /\
     delay_seconds cfg = z /\
     forall t, Stderr ("ERROR: Invalid MCP_MOCK_DELAY value: " +:+ t) ∉ evs) /\
  (forall line rs es,
     process_request line rs es z = process_request line rs es 0 /\
     slept_of (fst (process_request line rs es z)) = []) /\
  (forall rs es stdin trace n,
     proc_trace (run n (Process (Serving rs es z) stdin trace)) =
     proc_trace (run n (Process (Serving rs es 0) stdin trace))) /\
  (forall stdin n,
     let p := main environ stdin n in
     let q := main (delete "MCP_MOCK_DELAY" environ) stdin n in
     proc_stdin p = proc_stdin q /\
     stdout_of (proc_trace p) = stdout_of (proc_trace q) /\
     slept_of (proc_trace p) = slept_of (proc_trace q)).
Proof.
  intros Htext Hint Hneg.
  split; [|split; [|split]].
  - intros Hlr Hle.
    destruct (load_config_returns environ Hlr Hle) as (evs' & cfg & Hret & _).
    destruct (load_config_delay environ text z Htext Hint)
      as (evs & _ & Hquiet & [(rs & es & Hload & _) | (e & Hload & _)]);
      [|congruence].
    by exists evs, (Config rs es z (hang_setting environ)).
  - intros line rs' es'. split; [apply process_request_nonpositive; lia|].
    destruct (process_request_events line rs' es' z) as [-> | ->]; [done|].
    unfold delay_events. by assert ((0 <? z) = false) as -> by lia.
  - intros rs' es' stdin trace n.
    destruct (run_nonpositive z n ltac:(lia) (Serving rs' es' z) (Serving rs' es' 0)
                stdin trace trace) as (md & m0 & rest & events & -> & -> & _); [|done].
    right. eauto.
  - intros stdin n. cbv zeta. unfold main.
    destruct (main_start_delay environ text z stdin Htext Hint)
      as (m & m0 & tr & tr0 & -> & -> & Hsim & Htr & Htr0).
    destruct (run_nonpositive z n ltac:(lia) m m0 stdin tr tr0 Hsim)
      as (m' & m0' & rest & events & Hp & Hq & _).
    rewrite Hp, Hq. simpl.
    rewrite !stdout_of_app, !slept_of_app.
    by rewrite (stdout_of_stderr _ Htr), (stdout_of_stderr _ Htr0),
      (slept_of_stderr _ Htr), (slept_of_stderr _ Htr0).
Qed.

(** ** Failures

    An exception in the loop body ends the loop with a diagnostic; a
    configured value that has no length ends the process in the startup
    summary. *)

Lemma raise_ends_serving line rest rs es d trace evs e :
  serve_line line rs es d = (evs, Raise e) ->
  step (Process (Serving rs es d) (line :: rest) trace)
  = Some (Process Exited rest
            (trace ++ evs ++ [Stderr ("Mock server error: " +:+ exn_text e)])).
Proof. intros Hs. unfold step. simpl. by rewrite Hs. Qed.

Lemma unsized_config_crashes (environ : gmap string string) stdin evs0 cfg :
  load_config environ = (evs0, Return cfg) ->
  sized (responses cfg) && sized (errors cfg) = false ->
  proc_mode (main_start environ stdin) = Crashed TypeError /\
  step (main_start environ stdin) = None.
Proof.
  intros Hload Hsized.
  destruct (startup_outcome environ evs0 cfg Hload) as [_ Hout].
  rewrite Hsized in Hout. destruct Hout as (evs & Hs).
  unfold main_start. by rewrite Hs.
Qed.

End Properties.

(** * Instances on the example runtime *)


Lemma parse_error_always_answered_witness :
  exists response,
    @process_request Demo.demo_runtime "not json" (JDict Demo.demo_responses)
      (JDict Demo.demo_errors) 3
    = ([], Return (Some response)) /\
    response_id response = Some JNull /\
    response_error response
    = Some (JInt (-32700),
            JString "Parse error: Expecting value: line 1 column 1 (char 0)").
Proof.
  destruct (@parse_error_always_answered Demo.demo_runtime "not json"
              "Expecting value: line 1 column 1 (char 0)"
              (JDict Demo.demo_responses) (JDict Demo.demo_errors) 3)
    as (response & message & Hpr & Hid & Herr & _ & -> & _); [reflexivity|].
  exists response. repeat split; assumption.
Defined.





Lemma load_config_never_fails_witness :
  exists evs cfg,
    @load_config Demo.demo_runtime {[ "MCP_MOCK_RESPONSES" := "not json" ]}
    = (evs, Return cfg) /\
    responses cfg = JDict [] /\
    Stderr "ERROR: Invalid MCP_MOCK_RESPONSES JSON" ∈ evs.
Proof.
  destruct (@load_config_never_fails Demo.demo_runtime
              {[ "MCP_MOCK_RESPONSES" := "not json" ]})
    as (evs & cfg & Hload & _ & _ & Hbad & _).
  - right. exists "Expecting value: line 1 column 1 (char 0)". vm_compute. reflexivity.
  - left. exists (JDict []). vm_compute. reflexivity.
  - exists evs, cfg. split; [exact Hload|]. apply Hbad.
    exists "not json", "Expecting value: line 1 column 1 (char 0)".
    split; [vm_compute; reflexivity|]. split; [discriminate|reflexivity].
Defined.

Lemma hang_forever_never_serves_witness :
  proc_mode (@main Demo.demo_runtime Demo.hang_environ [Demo.ping_call] 2) = Hanging /\
  proc_stdin (@main Demo.demo_runtime Demo.hang_environ [Demo.ping_call] 2)
  = [Demo.ping_call] /\
  stdout_of (proc_trace (@main Demo.demo_runtime Demo.hang_environ [Demo.ping_call] 2)) = [].
Proof.
  destruct (@hang_forever_never_serves Demo.demo_runtime Demo.hang_environ [Demo.ping_call]
              [] (Config (JDict []) (JDict []) 0 true) 2)
    as (summary & _ & Hmode & Hin & _ & Hout & _);
    [vm_compute; reflexivity | reflexivity | reflexivity | reflexivity |].
  exact (conj Hmode (conj Hin Hout)).
Defined.


Lemma negative_delay_never_sleeps_witness :
  (exists evs cfg,
     @load_config Demo.demo_runtime Demo.negative_delay_environ = (evs, Return cfg) /\
     delay_seconds cfg = -5) /\
  @process_request Demo.demo_runtime Demo.ping_call (JDict Demo.demo_responses) (JDict []) (-5)
  = @process_request Demo.demo_runtime Demo.ping_call (JDict Demo.demo_responses) (JDict []) 0.
Proof.
  destruct (@negative_delay_never_sleeps Demo.demo_runtime Demo.negative_delay_environ
              "-5" (-5))
    as (Hload & Hpr & _);
    [vm_compute; reflexivity | reflexivity | reflexivity |].
  split; [|exact (proj1 (Hpr Demo.ping_call (JDict Demo.demo_responses) (JDict [])))].
  destruct Hload as (evs & cfg & Hload & Hdelay & _).
  - left. exists (JDict []). vm_compute. reflexivity.
  - left. exists (JDict []). vm_compute. reflexivity.
  - by exists evs, cfg.
Defined.

(** * Lines, methods and settings outside the request format *)



(** A line of a thousand opening brackets is not JSON, yet it gets no
    parse error: [json.loads] raises [RecursionError], which
    [process_request] does not catch, and the loop body ends with it.  And
    the empty line, which is not JSON either, is skipped by the loop. *)
Lemma deep_line_gets_no_parse_error :
  @json_loads Demo.demo_runtime Demo.deep_text = Raise RecursionError /\
  @process_request Demo.demo_runtime Demo.deep_text (JDict []) (JDict []) 0
  = ([], Raise RecursionError) /\
  @serve_line Demo.demo_runtime Demo.deep_text (JDict []) (JDict []) 0
  = ([], Raise RecursionError) /\
  @json_loads Demo.demo_runtime EmptyString
  = Raise (JSONDecodeError "Expecting value: line 1 column 1 (char 0)") /\
  @serve_line Demo.demo_runtime EmptyString (JDict []) (JDict []) 0 = ([], Return tt) /\
  ~ @invalid_line_always_answered Demo.demo_runtime.
Proof.
  assert (@process_request Demo.demo_runtime Demo.deep_text (JDict []) (JDict []) 0
          = ([], Raise RecursionError)) as Hraise by (vm_compute; reflexivity).
  split; [vm_compute; reflexivity|]. split; [exact Hraise|].
  split; [vm_compute; reflexivity|]. split; [reflexivity|]. split; [reflexivity|].
  intros Hall.
  destruct (Hall Demo.deep_text (JDict []) (JDict []) 0) as (response & message & Hret & _).
  - intros v Hv. vm_compute in Hv. discriminate Hv.
  - rewrite Hraise in Hret. discriminate Hret.
Qed.

(** With a thousand opening brackets in [MCP_MOCK_RESPONSES], [load_config]
    does not return: [RecursionError] leaves it, and [main] with it. *)
Lemma load_config_fails_on_deep_text :
  @load_config Demo.demo_runtime Demo.deep_environ = ([], Raise RecursionError) /\
  @main Demo.demo_runtime Demo.deep_environ [Demo.ping_call] 3
  = Process (Crashed RecursionError) [Demo.ping_call] [] /\
  ~ @load_config_always_returns Demo.demo_runtime.
Proof.
  assert (@load_config Demo.demo_runtime Demo.deep_environ = ([], Raise RecursionError))
    as Hraise by (vm_compute; reflexivity).
  split; [exact Hraise|]. split; [vm_compute; reflexivity|].
  intros Hall. destruct (Hall Demo.deep_environ) as (evs & cfg & Hret).
  rewrite Hraise in Hret. discriminate Hret.
Qed.

(** With [MCP_MOCK_HANG=1] and [MCP_MOCK_RESPONSES=5], [load_config] returns
    a configuration whose [hang_forever] is set, yet the process never
    hangs: [len(5)] raises [TypeError] in the startup summary. *)
Lemma hang_flag_lost_on_unsized_mapping :
  @load_config Demo.demo_runtime Demo.number_environ
  = ([], Return (Config (JInt 5) (JDict []) 0 true)) /\
  @main Demo.demo_runtime Demo.number_environ [Demo.ping_call] 2
  = Process (Crashed TypeError) [Demo.ping_call] [Stderr "MCP Mock Server starting..."] /\
  ~ @hang_forever_always_hangs Demo.demo_runtime.
Proof.
  assert (@load_config Demo.demo_runtime Demo.number_environ
          = ([], Return (Config (JInt 5) (JDict []) 0 true)))
    as Hload by (vm_compute; reflexivity).
  split; [exact Hload|]. split; [vm_compute; reflexivity|].
  intros Hall.
  specialize (Hall Demo.number_environ [Demo.ping_call] [] _ 2%nat Hload eq_refl).
  vm_compute in Hall. discriminate Hall.
Qed.


(** * Scenarios *)

Section Scenarios.
Import Demo.

Example ping_scenario :
  process_request ping_call (JDict demo_responses) (JDict []) 0
  = ([], Return (Some (result_response (JInt 1) (JString "pong")))).
Proof. reflexivity. Qed.

Example fail_scenario :
  process_request fail_call (JDict []) (JDict boom_errors) 0
  = ([], Return (Some (error_response (JString "a") (JInt 123) (JString "boom")))).
Proof. reflexivity. Qed.

Example whatever_scenario :
  process_request whatever_call (JDict []) (JDict []) 0
  = ([], Return (Some (error_response (JInt 2) (JInt (-32601))
                         (JString "Method not found: whatever")))).
Proof. reflexivity. Qed.

Example notify_scenario :
  serve_line notify (JDict []) (JDict []) 0 = ([], Return tt).
Proof. reflexivity. Qed.

Example not_json_scenario :
  stdout_of (fst (serve_line "not json" (JDict []) (JDict []) 0))
  = [json_dumps (parse_error_response "Expecting value: line 1 column 1 (char 0)")].
Proof. reflexivity. Qed.

Example missing_method_scenario :
  process_request no_method_call (JDict demo_responses) (JDict demo_errors) 0
  = ([], Return (Some (error_response (JInt 3) (JInt (-32601))
                         (JString "Method not found: None")))).
Proof. reflexivity. Qed.

Example short_list_descriptor_scenario :
  dict_lookup "short" demo_errors = Some (JList [JInt 7]) /\
  py_str (JList [JInt 7]) = "[7]".
Proof. split; reflexivity. Qed.

(** A session: a call, a blank line, a notification, a line that is not
    JSON, then a line that is JSON but no object, which ends the loop. *)
Example session_scenario :
  let p := main (<[ "MCP_MOCK_RESPONSES" := ping_pong ]> ∅)
             [ping_call; "  "; notify; "zzz"; "5"; ping_call] 6 in
  proc_mode p = Exited /\
  proc_stdin p = [ping_call] /\
  stdout_of (proc_trace p)
  = [json_dumps (result_response (JInt 1) (JString "pong"));
     json_dumps (parse_error_response "Expecting value: line 1 column 1 (char 0)")].
Proof. vm_compute. repeat split. Qed.

(** Ids that are falsy and not null are answered. *)
Example falsy_ids_scenario :
  stdout_of (proc_trace (main (<[ "MCP_MOCK_RESPONSES" := ping_pong ]> ∅)
                           [zero_id_call; false_id_call; empty_id_call; null_id_call] 4))
  = [json_dumps (result_response (JInt 0) (JString "pong"));
     json_dumps (result_response (JBool false) (JString "pong"));
     json_dumps (result_response (JString EmptyString) (JString "pong"))].
Proof. vm_compute. reflexivity. Qed.

(** A responses variable that holds a number: [load_config] returns it, and
    the startup summary fails on [len] before the hang test. *)
Example number_scenario :
  snd (load_config number_environ) = Return (Config (JInt 5) (JDict []) 0 true) /\
  proc_mode (main_start number_environ [ping_call]) = Crashed TypeError.
Proof. vm_compute. split; reflexivity. Qed.

(** A line of a thousand opening brackets ends the loop: the line after it
    stays unread. *)
Example deep_line_scenario :
  let p := main ∅ [deep_text; ping_call] 3 in
  proc_mode p = Exited /\
  proc_stdin p = [ping_call] /\
  stdout_of (proc_trace p) = [].
Proof. vm_compute. repeat split. Qed.

(** A delay of 9223372037 seconds: [time.sleep] refuses it, and the first
    request object ends the loop without a response. *)
Example refused_delay_scenario :
  process_request ping_call (JDict demo_responses) (JDict []) 9223372037
  = ([], Raise OverflowError) /\
  process_request ping_call (JDict demo_responses) (JDict []) 9223372036
  = ([Sleep 9223372036], Return (Some (result_response (JInt 1) (JString "pong")))).
Proof. split; reflexivity. Qed.

End Scenarios.

(** * Further properties of [process_request] *)

Section Resolver.
Context `{RT : PyRuntime}.

(** The possible ends of [process_request] on a request object whose id is
    [req_id]. *)
Lemma process_request_object_outcome line request rs es d :
  json_loads line = Return (JDict request) ->
  let req_id := default JNull (dict_lookup "id" request) in
  (exists e, snd (process_request line rs es d) = Raise e) \/
  (req_id = JNull /\ snd (process_request line rs es d) = Return None) \/
  (req_id <> JNull /\
   ((exists code message,
       snd (process_request line rs es d)
       = Return (Some (error_response req_id code message))) \/
    (exists result,
       snd (process_request line rs es d)
       = Return (Some (result_response req_id result))))).
Proof.
  intros Hdec req_id.
  destruct (Z.le_gt_cases d max_sleep) as [Hd | Hd].
  2: { left. rewrite (process_request_overflow line request rs es d Hdec Hd). eauto. }
  unfold process_request. rewrite Hdec, delay_step.
  assert ((d <=? max_sleep) = true) as -> by lia.
  unfold py_get, mbind, M_bind, mret, M_ret. cbn. fold req_id.
  set (method := default JNull (dict_lookup "method" request)).
  destruct (is_none req_id) eqn:Hnone.
  { right. left. split; [by destruct req_id|done]. }
  assert (req_id <> JNull) as Hnn by (by intros Heq; rewrite Heq in Hnone).
  destruct (py_in method es) as [ee [[]|]]; cbn; eauto.
  all: try (destruct (py_getitem es method) as [eg [v|]]; cbn; eauto;
            destruct v as [| | | | |[|e0 [|e1 l]]|]; cbn; by eauto 10).
  all: destruct (py_in method rs) as [er [[]|]]; cbn; eauto 10.
  all: destruct (py_getitem rs method) as [eg [v|]]; cbn; eauto 10.
Qed.

(** A line that [json.loads] does not decode gets a response only for a
    [JSONDecodeError], and that response is the parse error. *)
Lemma process_request_undecoded_response line e rs es d response :
  json_loads line = Raise e ->
  snd (process_request line rs es d) = Return (Some response) ->
  exists diagnostic,
    e = JSONDecodeError diagnostic /\ response = parse_error_response diagnostic.
Proof.
  intros Hdec Hret. unfold process_request in Hret. rewrite Hdec in Hret.
  destruct e; try done. simpl in Hret. injection Hret as <-. eauto.
Qed.

Lemma process_request_response_shape line rs es d response :
  snd (process_request line rs es d) = Return (Some response) ->
  is_response response.
Proof.
  intros Hret. destruct (json_loads line) as [v|e] eqn:Hdec.
  - destruct v; try (by rewrite (non_object_line_raises line _ rs es d Hdec) in Hret).
    destruct (process_request_object_outcome line fields rs es d Hdec)
      as [[e He] | [[_ Hnone] | [_ [(c & m & Herr) | (r & Hres)]]]];
      rewrite Hret in *; simplify_eq; eexists; eauto.
  - destruct (process_request_undecoded_response line e rs es d response Hdec Hret)
      as (diagnostic & _ & ->).
    exists JNull. left. eauto.
Qed.

(** [X1] Every response [process_request] returns, for any line and any
    configuration, is a JSON-RPC 2.0 object with an id and with either an
    error (a code and a message) or a result, never both and never
    neither. *)
Theorem responses_are_jsonrpc line rs es d response :
  snd (process_request line rs es d) = Return (Some response) ->
  is_response response /\
  (exists members,
     response = JDict members /\
     dict_lookup "jsonrpc" members = Some (JString "2.0")) /\
  is_Some (response_id response) /\
  (is_Some (response_error response) <-> response_result response = None).
Proof.
  intros Hret.
  pose proof (process_request_response_shape line rs es d response Hret) as Hshape.
  split; [exact Hshape|].
  destruct Hshape as (id & [(code & message & ->) | (result & ->)]); simpl.
  - repeat split; eauto.
  - repeat split; eauto; [by intros [? ?]|done].
Qed.

(** [X2] The id of a response is null exactly when the line could not be
    decoded; otherwise it is the id member of the request, which is not
    null. *)
Theorem response_id_tells_parse_errors line rs es d response :
  snd (process_request line rs es d) = Return (Some response) ->
  (response_id response = Some JNull
   <-> exists diagnostic, json_loads line = Raise (JSONDecodeError diagnostic)) /\
  (forall request, json_loads line = Return (JDict request) ->
     response_id response = dict_lookup "id" request).
Proof.
  intros Hret. destruct (json_loads line) as [v|e] eqn:Hdec.
  - destruct v; try (by rewrite (non_object_line_raises line _ rs es d Hdec) in Hret).
    destruct (process_request_object_outcome line fields rs es d Hdec)
      as [[e He] | [[_ Hnone] | [Hnn [(c & m & Hout) | (r & Hout)]]]];
      rewrite Hret in *; try done.
    all: injection Hout as ->; simpl.
    all: destruct (dict_lookup "id" fields) as [req_id|] eqn:Hid; simpl in *; [|done].
    all: split; [|by intros request [= <-]].
    all: split; [intros [= ->]; done | intros [? ?]; done].
  - destruct (process_request_undecoded_response line e rs es d response Hdec Hret)
      as (diagnostic & -> & ->).
    split; [|done]. split; eauto.
Qed.

(** [X3] With mappings for both settings, a result response is returned
    only to a request object whose method is a string bound in [responses]
    and not bound in [errors]; the result is the bound payload and the id is
    the request's. *)
Theorem result_only_if_configured line r e d id payload :
  snd (process_request line (JDict r) (JDict e) d)
  = Return (Some (result_response id payload)) ->
  exists request m,
    json_loads line = Return (JDict request) /\
    dict_lookup "id" request = Some id /\
    dict_lookup "method" request = Some (JString m) /\
    dict_lookup m e = None /\
    dict_lookup m r = Some payload.
Proof.
  intros Hret. destruct (json_loads line) as [v|ex] eqn:Hdec.
  2: { destruct (process_request_undecoded_response line ex _ _ d _ Hdec Hret)
         as (diagnostic & _ & Hshape). done. }
  destruct v; try (by rewrite (non_object_line_raises line _ _ _ d Hdec) in Hret).
  pose proof (returned_after_delay line fields _ _ d _ Hdec Hret) as Hd.
  exists fields.
  destruct (dict_lookup "id" fields) as [req_id|] eqn:Hid.
  2: { rewrite (process_request_notification line fields _ _ d Hdec) in Hret;
         [done | by left | done]. }
  assert (req_id = JNull \/ req_id <> JNull) as [-> | Hnn]
    by (destruct req_id; auto).
  { rewrite (process_request_notification line fields _ _ d Hdec) in Hret;
      [done | by right | done]. }
  destruct (hashable (method_of fields)) eqn:Hh.
  2: { by rewrite (unhashable_method_raises line fields req_id e _ d) in Hret. }
  destruct (dict_lookup "method" fields) as [[| | | |m| |]|] eqn:Hm;
    try (unfold method_of in Hh; rewrite Hm in Hh; done).
  5: { exists m. destruct (dict_lookup m e) as [data|] eqn:He.
       { rewrite (process_request_error_entry line fields req_id m e _ d data) in Hret
           by done.
         simpl in Hret. by destruct data as [| | | | |[|e0 [|e1 l]]|]. }
       destruct (dict_lookup m r) as [payload'|] eqn:Hr.
       - rewrite (process_request_result_entry line fields req_id m e r d payload')
           in Hret by done.
         simpl in Hret. unfold result_response in Hret. by simplify_eq.
       - rewrite (process_request_not_found line fields req_id e r d) in Hret; try done.
         + unfold method_of. rewrite Hm. intros (m' & [= <-] & Hs).
           rewrite He in Hs. by destruct Hs.
         + unfold method_of. rewrite Hm. intros (m' & [= <-] & Hs).
           rewrite Hr in Hs. by destruct Hs. }
  all: rewrite (process_request_not_found line fields req_id e r d) in Hret; try done;
    unfold method_of; rewrite Hm; by intros (m' & ? & ?).
Qed.


(** [X5] Only the method and the id of a request matter: two lines that
    decode to objects with the same method and the same id (an absent member
    counting as null) are processed alike, whatever their other members. *)
Theorem only_method_and_id_matter line line' request request' rs es d :
  json_loads line = Return (JDict request) ->
  json_loads line' = Return (JDict request') ->
  method_of request = method_of request' ->
  default JNull (dict_lookup "id" request) = default JNull (dict_lookup "id" request') ->
  process_request line rs es d = process_request line' rs es d.
Proof.
  intros Hdec Hdec' Hm Hid. unfold process_request. rewrite Hdec, Hdec'.
  unfold py_get, mbind, M_bind, mret, M_ret. cbn.
  fold (method_of request) (method_of request'). by rewrite Hm, Hid.
Qed.

End Resolver.
(** * Further properties of the serving loop *)

Section Serving.
Context `{RT : PyRuntime}.

Lemma lstrip_head (s : string) c t : lstrip s = String c t -> is_space c = false.
Proof.
  induction s as [|c' s IH]; cbn [lstrip]; [done|].
  destruct (is_space c') eqn:Hc'; [exact IH|]. intros Heq. by simplify_eq.
Qed.

Lemma rstrip_rstrip (s : string) : rstrip (rstrip s) = rstrip s.
Proof.
  induction s as [|c s IH]; cbn [rstrip]; [done|].
  destruct (rstrip s) as [|c' t] eqn:Hs.
  - destruct (is_space c) eqn:Hc; cbn [rstrip]; [done|]. by rewrite Hc.
  - cbn [rstrip] in IH |- *. by rewrite IH.
Qed.

Lemma lstrip_rstrip (s : string) c t :
  s = String c t -> is_space c = false -> lstrip (rstrip s) = rstrip s.
Proof.
  intros -> Hc. cbn [rstrip]. rewrite Hc.
  destruct (rstrip t); cbn [lstrip]; by rewrite Hc.
Qed.

Lemma str_strip_idempotent (s : string) : str_strip (str_strip s) = str_strip s.
Proof.
  unfold str_strip. destruct (lstrip s) as [|c t] eqn:Hl; [done|].
  rewrite (lstrip_rstrip (String c t) c t eq_refl (lstrip_head s c t Hl)).
  apply rstrip_rstrip.
Qed.

(** [X6] Whitespace around a line is insignificant: a line and its stripped
    form are served alike, and a line of whitespace only is skipped with no
    effect at all, not even the delay. *)
Theorem whitespace_is_insignificant raw rs es d :
  serve_line (str_strip raw) rs es d = serve_line raw rs es d /\
  (blank raw = true -> serve_line raw rs es d = ([], Return tt)).
Proof.
  split.
  - unfold serve_line. by rewrite str_strip_idempotent.
  - unfold blank, serve_line. by intros ->.
Qed.

(** The events of one run of the loop body: at most the delay, then at most
    one response line. *)
Lemma serve_line_events raw rs es d :
  exists pre out,
    fst (serve_line raw rs es d) = pre ++ out /\
    (pre = [] \/ pre = delay_events d) /\
    (out = [] \/
     exists response, is_response response /\ out = [Stdout (json_dumps response)]).
Proof.
  unfold serve_line. destruct (nonempty (str_strip raw)); simpl.
  2: { exists [], []. auto. }
  unfold mbind, M_bind, bind.
  pose proof (process_request_events (str_strip raw) rs es d) as Hpre.
  pose proof (process_request_response_shape (str_strip raw) rs es d) as Hshape.
  destruct (process_request (str_strip raw) rs es d) as [evs [[response|]|e]];
    simpl in *.
  - exists evs, [Stdout (json_dumps response)]. repeat split; eauto.
  - exists evs, []. rewrite app_nil_r. auto.
  - exists evs, []. rewrite app_nil_r. auto.
Qed.

Lemma delay_events_bounds (d : Z) :
  stdout_of (delay_events d) = [] /\
  (length (slept_of (delay_events d)) <= 1)%nat /\
  Forall (fun s => s = d /\ 0 < s) (slept_of (delay_events d)).
Proof.
  unfold delay_events. destruct ((0 <? d) && (d <=? max_sleep)) eqn:Hd; simpl;
    repeat split; auto.
  constructor; [|done]. split; [done|lia].
Qed.

Lemma serve_line_bounds raw rs es d :
  (length (stdout_of (fst (serve_line raw rs es d))) <= 1)%nat /\
  (length (slept_of (fst (serve_line raw rs es d))) <= 1)%nat /\
  Forall (fun s => s = d /\ 0 < s) (slept_of (fst (serve_line raw rs es d))) /\
  Forall response_line (stdout_of (fst (serve_line raw rs es d))) /\
  forallb (fun ev => negb (is_stderr ev)) (fst (serve_line raw rs es d)) = true.
Proof.
  destruct (serve_line_events raw rs es d) as (pre & out & -> & Hpre & Hout).
  destruct (delay_events_bounds d) as (Hq & Hlen & Hall).
  assert (forallb (fun ev => negb (is_stderr ev)) (delay_events d) = true) as Hnd
    by (unfold delay_events; by destruct ((0 <? d) && (d <=? max_sleep))).
  unfold stdout_of, slept_of in *. rewrite !omap_app, !length_app, forallb_app.
  destruct Hpre as [-> | ->], Hout as [-> | (response & Hshape & ->)]; simpl;
    rewrite ?app_nil_r, ?Hq, ?Hnd; simpl.
  all: repeat split; try done; try lia.
  all: try (constructor; [|done]).
  all: destruct Hshape as (id & [(c & m & ->) | (r & ->)]); exists id; eauto.
Qed.

(** [X7] At most one output line and at most one sleep per line read: after
    the loop has run on [stdin], the lines written, and likewise the sleeps,
    are no more than the lines consumed; every sleep lasts [delay_seconds],
    which is then positive; and every line written is the text of a
    response object. *)
Theorem one_response_per_line stdin rs es d :
  (length (stdout_of (fst (serve_all stdin rs es d)))
   + length (snd (serve_all stdin rs es d)) <= length stdin)%nat /\
  (length (slept_of (fst (serve_all stdin rs es d)))
   + length (snd (serve_all stdin rs es d)) <= length stdin)%nat /\
  Forall (fun s => s = d /\ 0 < s) (slept_of (fst (serve_all stdin rs es d))) /\
  Forall response_line (stdout_of (fst (serve_all stdin rs es d))).
Proof.
  induction stdin as [|line rest IH]; cbn [serve_all]; [by repeat split|].
  destruct (serve_line_bounds line rs es d) as (Hout & Hsl & Hd & Hresp & _).
  destruct (serve_line line rs es d) as [evs [[]|e]]; simpl in *.
  - destruct (serve_all rest rs es d) as [evs' unread]. simpl in *.
    destruct IH as (IH1 & IH2 & IH3 & IH4).
    unfold stdout_of, slept_of in *. rewrite !omap_app, !length_app.
    repeat split; try lia; by apply Forall_app.
  - unfold stdout_of, slept_of in *. rewrite !omap_app, !length_app. simpl.
    rewrite !app_nil_r. repeat split; try lia; done.
Qed.

Lemma run_exited (n : nat) (stdin : list string) (trace : list event) :
  run n (Process Exited stdin trace) = Process Exited stdin trace.
Proof. by destruct n. Qed.

Lemma run_serve_all rs es d (stdin : list string) :
  forall (n : nat) (trace : list event),
    (length stdin < n)%nat ->
    run n (Process (Serving rs es d) stdin trace)
    = Process Exited (snd (serve_all stdin rs es d))
        (trace ++ fst (serve_all stdin rs es d)).
Proof.
  induction stdin as [|line rest IH]; intros n trace Hn;
    (destruct n as [|n]; [simpl in Hn; lia|]).
  - cbn [run]. unfold step. simpl. by rewrite run_exited.
  - cbn [run]. unfold step. cbn [proc_mode proc_stdin proc_trace turn serve_all].
    destruct (serve_line line rs es d) as [evs [[]|e]].
    + rewrite IH by (simpl in Hn; lia).
      destruct (serve_all rest rs es d) as [evs' unread]. simpl.
      by rewrite app_assoc.
    + by rewrite run_exited.
Qed.

Lemma startup_quiet (environ : gmap string string) :
  forallb is_stderr (fst (startup environ)) = true.
Proof.
  pose proof (load_config_quiet environ) as Herr.
  unfold startup, mbind, M_bind, bind.
  destruct (load_config environ) as [evs0 [cfg|e]]; simpl in Herr; [|done].
  destruct cfg as [rs es d h]. simpl.
  destruct rs, es; simpl; by rewrite ?app_nil_r, ?forallb_app, ?Herr.
Qed.

(** [X8] When standard input ends, the server ends: a process that is
    neither hanging nor crashed at startup has exited after one turn per
    input line and one more, having done what [serve_all] describes, and
    takes no further turn. *)
Theorem serving_terminates (environ : gmap string string) stdin evs cfg (n : nat) :
  startup environ = (evs, Return cfg) ->
  hang_forever cfg = false ->
  (length stdin < n)%nat ->
  main environ stdin n
  = Process Exited
      (snd (serve_all stdin (responses cfg) (errors cfg) (delay_seconds cfg)))
      (evs ++ fst (serve_all stdin (responses cfg) (errors cfg) (delay_seconds cfg))) /\
  step (main environ stdin n) = None.
Proof.
  intros Hstart Hhang Hn.
  assert (main environ stdin n
          = Process Exited
              (snd (serve_all stdin (responses cfg) (errors cfg) (delay_seconds cfg)))
              (evs ++ fst (serve_all stdin (responses cfg) (errors cfg)
                             (delay_seconds cfg)))) as ->.
  { unfold main, main_start. rewrite Hstart, Hhang. by apply run_serve_all. }
  done.
Qed.

Lemma serve_all_completes stdin rs es d :
  completes stdin rs es d -> snd (serve_all stdin rs es d) = [].
Proof.
  induction 1 as [|line rest Hline Hrest IH]; simpl; [done|].
  destruct (serve_line line rs es d) as [evs [[]|e]]; simpl in *; [|done].
  by destruct (serve_all rest rs es d).
Qed.

(** [X9] The loop keeps no state between lines.  Serving two inputs one
    after the other, the first without an exception, is serving their
    concatenation; and a line whose processing raises ends the loop: one
    diagnostic goes to the error stream and the lines after it stay
    unread. *)
Theorem serving_composes l1 l2 rs es d :
  completes l1 rs es d ->
  serve_all (l1 ++ l2) rs es d
  = (fst (serve_all l1 rs es d) ++ fst (serve_all l2 rs es d),
     snd (serve_all l2 rs es d)) /\
  snd (serve_all l1 rs es d) = [] /\
  forall line evs e,
    serve_line line rs es d = (evs, Raise e) ->
    serve_all (l1 ++ line :: l2) rs es d
    = (fst (serve_all l1 rs es d) ++ evs
         ++ [Stderr ("Mock server error: " +:+ exn_text e)],
       l2).
Proof.
  intros Hok. split; [|split; [by apply serve_all_completes|]].
  - induction Hok as [|line rest Hline Hrest IH]; simpl.
    { by destruct (serve_all l2 rs es d). }
    destruct (serve_line line rs es d) as [evs [[]|e]]; simpl in *; [|done].
    rewrite IH. destruct (serve_all rest rs es d) as [evs' unread]. simpl.
    by rewrite app_assoc.
  - intros line evs e Hraise.
    induction Hok as [|line' rest Hline Hrest IH]; simpl.
    { by rewrite Hraise. }
    destruct (serve_line line' rs es d) as [evs' [[]|e']]; simpl in *; [|done].
    rewrite IH. destruct (serve_all rest rs es d) as [evs'' unread]. simpl.
    by rewrite app_assoc.
Qed.

(** [X10] Blank lines are invisible: removing the lines that are empty or
    whitespace only from the input changes nothing in what the loop does,
    and the lines left unread are the same up to the blank ones. *)
Theorem blank_lines_are_invisible stdin rs es d :
  let kept := List.filter (fun line => negb (blank line)) in
  fst (serve_all (kept stdin) rs es d) = fst (serve_all stdin rs es d) /\
  snd (serve_all (kept stdin) rs es d) = kept (snd (serve_all stdin rs es d)).
Proof.
  cbv zeta. induction stdin as [|line rest [IHe IHu]]; simpl; [done|].
  destruct (blank line) eqn:Hblank; simpl.
  - assert (serve_line line rs es d = ([], Return tt)) as ->
      by (unfold blank, serve_line in *; by rewrite Hblank).
    by destruct (serve_all rest rs es d).
  - destruct (serve_line line rs es d) as [evs [[]|e]]; [|done].
    destruct (serve_all (List.filter (fun line => negb (blank line)) rest) rs es d),
             (serve_all rest rs es d). simpl in *. by subst.
Qed.

Lemma step_stdout (p p' : process) :
  step p = Some p' ->
  Forall response_line (stdout_of (proc_trace p)) ->
  Forall response_line (stdout_of (proc_trace p')).
Proof.
  unfold step. destruct p as [m stdin trace]. simpl.
  destruct m as [|rs es d| |e]; simpl; try done.
  - intros [= <-] Hinv. simpl. unfold stdout_of. rewrite omap_app. simpl.
    by rewrite app_nil_r.
  - destruct stdin as [|line rest].
    { intros [= <-] Hinv. simpl. by rewrite app_nil_r. }
    destruct (serve_line_bounds line rs es d) as (_ & _ & _ & Hresp & _).
    destruct (serve_line line rs es d) as [evs [[]|e]]; intros [= <-] Hinv; simpl in *.
    + unfold stdout_of in *. rewrite omap_app. by apply Forall_app.
    + unfold stdout_of in *. rewrite !omap_app. simpl. rewrite app_nil_r.
      by apply Forall_app.
Qed.

(** [X11] Standard output carries protocol traffic only: whatever the
    environment, the input and the number of turns, every line the process
    has written to standard output is the text of a response object;
    diagnostics never go there. *)
Theorem stdout_is_protocol_only (environ : gmap string string) stdin (n : nat) :
  Forall response_line (stdout_of (proc_trace (main environ stdin n))).
Proof.
  unfold main.
  assert (Forall response_line (stdout_of (proc_trace (main_start environ stdin))))
    as Hstart.
  { unfold main_start. pose proof (startup_quiet environ) as Hq.
    destruct (startup environ) as [evs [cfg|e]]; simpl in Hq.
    - destruct (hang_forever cfg); simpl.
      + rewrite stdout_of_app, (stdout_of_stderr _ Hq). by simpl.
      + by rewrite (stdout_of_stderr _ Hq).
    - simpl. by rewrite (stdout_of_stderr _ Hq). }
  revert Hstart. generalize (main_start environ stdin). clear.
  induction n as [|n IH]; intros p Hp; simpl; [done|].
  destruct (step p) as [p'|] eqn:Hstep; [|done].
  apply IH. by apply (step_stdout p).
Qed.

End Serving.

(** * Further properties of startup and of [load_config] *)

Section Startup.
Context `{RT : PyRuntime}.

Lemma main_start_mode (environ : gmap string string) stdin evs0 cfg :
  load_config environ = (evs0, Return cfg) ->
  proc_mode (main_start environ stdin) = start_mode cfg /\
  proc_stdin (main_start environ stdin) = stdin.
Proof.
  intros Hload.
  destruct (startup_outcome environ evs0 cfg Hload) as [_ Hout].
  unfold main_start, start_mode.
  destruct (sized (responses cfg) && sized (errors cfg)).
  - destruct Hout as (summary & -> & _). by destruct (hang_forever cfg).
  - by destruct Hout as (evs & ->).
Qed.

Lemma step_mode (p p' : process) :
  step p = Some p' ->
  proc_mode p' = proc_mode p \/
  (exists rs es d, proc_mode p = Serving rs es d) /\ proc_mode p' = Exited.
Proof.
  unfold step. destruct p as [m stdin trace]. simpl.
  destruct m as [|rs es d| |e]; simpl; try done.
  - intros [= <-]. by left.
  - destruct stdin as [|line rest]; [intros [= <-]; right; eauto|].
    destruct (serve_line line rs es d) as [evs [[]|e]]; intros [= <-]; simpl; eauto 10.
Qed.

Lemma run_mode (n : nat) (p : process) :
  proc_mode (run n p) = proc_mode p \/
  (exists rs es d, proc_mode p = Serving rs es d) /\ proc_mode (run n p) = Exited.
Proof.
  revert p. induction n as [|n IH]; intros p; cbn [run]; [by left|].
  destruct (step p) as [p'|] eqn:Hstep; [|by left].
  destruct (step_mode p p' Hstep) as [Hsame | [Hserving Hexit]].
  - rewrite <- Hsame. apply IH.
  - right. split; [done|].
    destruct (IH p') as [-> | [(rs & es & d & Hs) _]]; [done|]. congruence.
Qed.

(** [X12] The configuration is fixed at startup.  Whatever the input and
    the number of turns, the process is in the mode its loaded configuration
    gives it (crashed when [len] is undefined on a mapping, else hanging
    when [hang_forever] is set, else serving with exactly the loaded
    mappings and delay) or, coming from serving only, has exited. *)
Theorem configuration_is_fixed (environ : gmap string string) evs0 cfg stdin (n : nat) :
  load_config environ = (evs0, Return cfg) ->
  proc_mode (main environ stdin n) = start_mode cfg \/
  (start_mode cfg
   = Serving (responses cfg) (errors cfg) (delay_seconds cfg) /\
   proc_mode (main environ stdin n) = Exited).
Proof.
  intros Hload.
  destruct (main_start_mode environ stdin evs0 cfg Hload) as [Hmode _].
  unfold main.
  destruct (run_mode n (main_start environ stdin)) as [-> | [(rs & es & d & Hs) ->]].
  - by left.
  - right. split; [|done]. rewrite Hmode in Hs. unfold start_mode in *.
    destruct (sized (responses cfg) && sized (errors cfg)); [|done].
    by destruct (hang_forever cfg).
Qed.

(** What a JSON setting block returned, when it returned. *)
Lemma json_setting_returned (name text : string) evs v :
  json_setting name text = (evs, Return v) ->
  (evs = [] \/ evs = [Stderr ("ERROR: Invalid " +:+ name +:+ " JSON")]) /\
  (text = EmptyString -> v = JDict [] /\ evs = []) /\
  (forall diagnostic, json_loads text = Raise (JSONDecodeError diagnostic) ->
     v = JDict [] /\
     (text <> EmptyString -> evs = [Stderr ("ERROR: Invalid " +:+ name +:+ " JSON")])) /\
  (forall v', json_loads text = Return v' -> v = v' /\ evs = []).
Proof.
  intros Hret.
  destruct (json_setting_outcome name text) as [(evs' & v' & Hs & Hall) | (e & Hs & _)];
    rewrite Hs in Hret; [|done].
  by injection Hret as <- <-.
Qed.

(** [X13] A JSON setting that decodes to a value without a length (a
    number, a boolean or null) stops the process in the startup summary,
    which is reached when [json.loads] returns or raises [JSONDecodeError]
    on the two JSON settings: no turn is ever taken, no line of input is
    read, and nothing is written to standard output. *)
Theorem unsized_setting_stops_startup (environ : gmap string string) name text v
    stdin (n : nat) :
  name = "MCP_MOCK_RESPONSES" \/ name = "MCP_MOCK_ERRORS" ->
  environ !! name = Some text ->
  json_loads text = Return v ->
  sized v = false ->
  setting_loads environ "MCP_MOCK_RESPONSES" ->
  setting_loads environ "MCP_MOCK_ERRORS" ->
  main environ stdin n = main_start environ stdin /\
  proc_mode (main environ stdin n) = Crashed TypeError /\
  proc_stdin (main environ stdin n) = stdin /\
  stdout_of (proc_trace (main environ stdin n)) = [] /\
  slept_of (proc_trace (main environ stdin n)) = [].
Proof.
  intros Hname Htext Hdec Hsized Hlr Hle.
  destruct (json_setting_returns "MCP_MOCK_RESPONSES" _ Hlr)
    as (evr & rs & Hr & _ & _ & _ & Hr_good).
  destruct (json_setting_returns "MCP_MOCK_ERRORS" _ Hle)
    as (eve & es & He & _ & _ & _ & He_good).
  destruct (delay_setting_returns (environ_get environ "MCP_MOCK_DELAY" "0"))
    as (evd & d & Hd & _).
  assert (load_config environ
          = (evr ++ eve ++ evd, Return (Config rs es d (hang_setting environ)))) as Hload.
  { rewrite load_config_blocks. unfold mbind, M_bind, bind. rewrite Hr, He, Hd.
    simpl. by rewrite app_nil_r. }
  assert (sized rs && sized es = false) as Hunsized.
  { unfold environ_get in *. destruct Hname as [-> | ->]; rewrite Htext in *; simpl in *.
    - destruct (Hr_good v Hdec) as [-> _]. by rewrite Hsized.
    - destruct (He_good v Hdec) as [-> _]. rewrite Hsized. apply andb_false_r. }
  destruct (main_start_mode environ stdin _ _ Hload) as [Hmode Hin].
  unfold start_mode in Hmode. simpl in Hmode. rewrite Hunsized in Hmode.
  assert (main environ stdin n = main_start environ stdin) as ->.
  { unfold main. destruct n; [done|]. simpl. unfold step. by rewrite Hmode. }
  repeat split; try done.
  - apply stdout_of_stderr. unfold main_start in *.
    pose proof (startup_quiet environ) as Hq.
    destruct (startup environ) as [evs [cfg|e]]; simpl in *; [|done].
    by destruct (hang_forever cfg).
  - apply slept_of_stderr. unfold main_start in *.
    pose proof (startup_quiet environ) as Hq.
    destruct (startup environ) as [evs [cfg|e]]; simpl in *; [|done].
    by destruct (hang_forever cfg).
Qed.

(** What [load_config] returns, block by block. *)
Lemma load_config_parts (environ : gmap string string) evs cfg :
  load_config environ = (evs, Return cfg) ->
  exists evr eve evd,
    json_setting "MCP_MOCK_RESPONSES" (environ_get environ "MCP_MOCK_RESPONSES" "{}")
    = (evr, Return (responses cfg)) /\
    json_setting "MCP_MOCK_ERRORS" (environ_get environ "MCP_MOCK_ERRORS" "{}")
    = (eve, Return (errors cfg)) /\
    delay_setting (environ_get environ "MCP_MOCK_DELAY" "0")
    = (evd, Return (delay_seconds cfg)) /\
    hang_forever cfg = hang_setting environ /\
    evs = evr ++ eve ++ evd.
Proof.
  destruct (delay_setting_returns (environ_get environ "MCP_MOCK_DELAY" "0"))
    as (evd & d & Hd & _).
  rewrite load_config_blocks. unfold mbind, M_bind, bind.
  destruct (json_setting "MCP_MOCK_RESPONSES" _) as [evr [rs|e]]; [|done].
  destruct (json_setting "MCP_MOCK_ERRORS" _) as [eve [es|e]]; [|done].
  rewrite Hd. simpl. rewrite app_nil_r. intros [= <- <-]. by exists evr, eve, evd.
Qed.

(** [X14] The four settings are independent: each field of the
    configuration depends on its own variable only, and the diagnostics
    depend on the three variables that can be malformed, not on
    [MCP_MOCK_HANG] nor on anything else in the environment. *)
Theorem settings_are_independent (environ environ' : gmap string string)
    evs cfg evs' cfg' :
  load_config environ = (evs, Return cfg) ->
  load_config environ' = (evs', Return cfg') ->
  let same name := environ !! name = environ' !! name in
  (same "MCP_MOCK_RESPONSES" -> responses cfg = responses cfg') /\
  (same "MCP_MOCK_ERRORS" -> errors cfg = errors cfg') /\
  (same "MCP_MOCK_DELAY" -> delay_seconds cfg = delay_seconds cfg') /\
  (same "MCP_MOCK_HANG" -> hang_forever cfg = hang_forever cfg') /\
  (same "MCP_MOCK_RESPONSES" -> same "MCP_MOCK_ERRORS" -> same "MCP_MOCK_DELAY" ->
     evs = evs').
Proof.
  intros Hload Hload'. cbv zeta.
  destruct (load_config_parts environ evs cfg Hload)
    as (evr & eve & evd & Hr & He & Hd & Hh & ->).
  destruct (load_config_parts environ' evs' cfg' Hload')
    as (evr' & eve' & evd' & Hr' & He' & Hd' & Hh' & ->).
  unfold hang_setting, environ_get in *.
  repeat split.
  - intros Hs. rewrite Hs in Hr. rewrite Hr in Hr'. by injection Hr'.
  - intros Hs. rewrite Hs in He. rewrite He in He'. by injection He'.
  - intros Hs. rewrite Hs in Hd. rewrite Hd in Hd'. by injection Hd'.
  - intros Hs. by rewrite Hh, Hh', Hs.
  - intros Hsr Hse Hsd. rewrite Hsr in Hr. rewrite Hse in He. rewrite Hsd in Hd.
    rewrite Hr in Hr'. rewrite He in He'. rewrite Hd in Hd'.
    injection Hr' as ->. injection He' as ->. by injection Hd' as ->.
Qed.

(** [X15] A setting that decodes is taken as it is: a JSON text of any
    type, not only an object, becomes the mapping, and an integer text of
    any sign becomes the delay. *)
Theorem valid_settings_are_taken_verbatim (environ : gmap string string) evs cfg :
  load_config environ = (evs, Return cfg) ->
  (forall text v, environ !! "MCP_MOCK_RESPONSES" = Some text ->
     json_loads text = Return v -> responses cfg = v) /\
  (forall text v, environ !! "MCP_MOCK_ERRORS" = Some text ->
     json_loads text = Return v -> errors cfg = v) /\
  (forall text z, environ !! "MCP_MOCK_DELAY" = Some text ->
     py_int text = Some z -> delay_seconds cfg = z).
Proof.
  intros Hload.
  destruct (load_config_parts environ evs cfg Hload)
    as (evr & eve & evd & Hr & He & Hd & _ & ->).
  destruct (json_setting_returned _ _ _ _ Hr) as (_ & _ & _ & Hr_good).
  destruct (json_setting_returned _ _ _ _ He) as (_ & _ & _ & He_good).
  destruct (delay_setting_returns (environ_get environ "MCP_MOCK_DELAY" "0"))
    as (evd' & d & Hd' & Hd_int & _).
  rewrite Hd in Hd'. injection Hd' as <- <-.
  unfold environ_get in *. repeat split.
  - intros text v Htext Hdec. rewrite Htext in *. simpl in *.
    by destruct (Hr_good v Hdec).
  - intros text v Htext Hdec. rewrite Htext in *. simpl in *.
    by destruct (He_good v Hdec).
  - intros text z Htext Hint. rewrite Htext in *. simpl in *.
    by destruct (Hd_int z Hint).
Qed.

(** The diagnostic of a JSON setting is there exactly when the variable is
    malformed. *)
Lemma json_setting_diagnostic (environ : gmap string string) name evs v :
  json_setting name (environ_get environ name "{}") = (evs, Return v) ->
  (evs = [Stderr ("ERROR: Invalid " +:+ name +:+ " JSON")] /\ malformed environ name) \/
  (evs = [] /\ ~ malformed environ name).
Proof.
  intros Hs.
  destruct (json_setting_returned _ _ _ _ Hs) as (_ & Hempty & Hbad & Hgood).
  unfold json_setting, environ_get in *.
  destruct (environ !! name) as [text|] eqn:Htext; simpl in *.
  - destruct text as [|c text].
    { right. destruct (Hempty eq_refl) as [_ ->]. split; [done|].
      intros (t & dg & Ht & Hne & _). rewrite Htext in Ht. by simplify_eq. }
    simpl in Hs. destruct (json_loads (String c text)) as [v'|e] eqn:Hdec.
    + right. destruct (Hgood v' eq_refl) as [_ ->]. split; [done|].
      intros (t & dg & Ht & _ & Hdg). rewrite Htext in Ht. simplify_eq. congruence.
    + destruct e; try done. left.
      destruct (Hbad msg eq_refl) as [_ Hev]. split; [by apply Hev|].
      by exists (String c text), msg.
  - right. destruct (Hgood _ json_loads_empty_object) as [_ ->]. split; [done|].
    intros (t & dg & Ht & _). rewrite Htext in Ht. done.
Qed.

(** [X16] The diagnostics of [load_config] name exactly the settings that
    failed: each of the three messages is written if and only if its
    variable holds a non-empty text that does not decode (for the delay: a
    text that [int] rejects), so there are at most three, all on the error
    stream. *)
Theorem diagnostics_name_the_failed_settings (environ : gmap string string) evs cfg :
  load_config environ = (evs, Return cfg) ->
  (Stderr "ERROR: Invalid MCP_MOCK_RESPONSES JSON" ∈ evs
   <-> malformed environ "MCP_MOCK_RESPONSES") /\
  (Stderr "ERROR: Invalid MCP_MOCK_ERRORS JSON" ∈ evs
   <-> malformed environ "MCP_MOCK_ERRORS") /\
  (forall text,
     Stderr ("ERROR: Invalid MCP_MOCK_DELAY value: " +:+ text) ∈ evs
     <-> environ !! "MCP_MOCK_DELAY" = Some text /\ py_int text = None) /\
  (length evs <= 3)%nat.
Proof.
  intros Hload.
  destruct (load_config_parts environ evs cfg Hload)
    as (evr & eve & evd & Hr & He & Hd & _ & ->).
  pose proof (json_setting_diagnostic environ "MCP_MOCK_RESPONSES" _ _ Hr) as Hevr.
  pose proof (json_setting_diagnostic environ "MCP_MOCK_ERRORS" _ _ He) as Heve.
  assert (evd = [] /\
            (forall text, ~ (environ !! "MCP_MOCK_DELAY" = Some text /\ py_int text = None))
          \/ exists text, evd = [Stderr ("ERROR: Invalid MCP_MOCK_DELAY value: " +:+ text)]
                 /\ environ !! "MCP_MOCK_DELAY" = Some text /\ py_int text = None)
    as Hvd.
  { destruct (delay_setting_returns (environ_get environ "MCP_MOCK_DELAY" "0"))
      as (evd' & d & Hd' & Hd_int & Hd_bad).
    rewrite Hd in Hd'. injection Hd' as <- <-. unfold environ_get in *.
    destruct (environ !! "MCP_MOCK_DELAY") as [text|] eqn:Htext; simpl in *.
    - destruct (py_int text) as [z|] eqn:Hint.
      + left. destruct (Hd_int z eq_refl) as [_ ->]. split; [done|].
        intros t [[= <-] Ht]. congruence.
      + right. exists text. by destruct (Hd_bad eq_refl) as [_ ->].
    - left. destruct (Hd_int _ py_int_zero) as [_ ->]. split; [done|].
      by intros t [? _]. }
  simpl in Hevr, Heve. clear Hr He Hd.
  split; [|split; [|split]].
  - rewrite !elem_of_app. split.
    + intros [Hin | [Hin | Hin]].
      * destruct Hevr as [[_ ?] | [-> _]]; [done|]. by apply elem_of_nil in Hin.
      * destruct Heve as [[-> _] | [-> _]]; [|by apply elem_of_nil in Hin].
        apply list_elem_of_singleton in Hin. by inversion Hin.
      * destruct Hvd as [[-> _] | (t & -> & _)]; [by apply elem_of_nil in Hin|].
        apply list_elem_of_singleton in Hin. by inversion Hin.
    + intros Hm. left. destruct Hevr as [[-> _] | [_ ?]]; [|done].
      by apply list_elem_of_singleton.
  - rewrite !elem_of_app. split.
    + intros [Hin | [Hin | Hin]].
      * destruct Hevr as [[-> _] | [-> _]]; [|by apply elem_of_nil in Hin].
        apply list_elem_of_singleton in Hin. by inversion Hin.
      * destruct Heve as [[_ ?] | [-> _]]; [done|]. by apply elem_of_nil in Hin.
      * destruct Hvd as [[-> _] | (t & -> & _)]; [by apply elem_of_nil in Hin|].
        apply list_elem_of_singleton in Hin. by inversion Hin.
    + intros Hm. right. left. destruct Heve as [[-> _] | [_ ?]]; [|done].
      by apply list_elem_of_singleton.
  - intros text. rewrite !elem_of_app. split.
    + intros [Hin | [Hin | Hin]].
      * destruct Hevr as [[-> _] | [-> _]]; [|by apply elem_of_nil in Hin].
        apply list_elem_of_singleton in Hin. by inversion Hin.
      * destruct Heve as [[-> _] | [-> _]]; [|by apply elem_of_nil in Hin].
        apply list_elem_of_singleton in Hin. by inversion Hin.
      * destruct Hvd as [[-> _] | (t & -> & Ht)]; [by apply elem_of_nil in Hin|].
        apply list_elem_of_singleton in Hin. cbn in Hin. by simplify_eq.
    + intros Hm. right. right. destruct Hvd as [[_ Hno] | (t & -> & Ht & _)].
      * by destruct (Hno text).
      * destruct Hm as [Hm _]. rewrite Ht in Hm. injection Hm as ->.
        by apply list_elem_of_singleton.
  - rewrite !length_app.
    destruct Hevr as [[-> _] | [-> _]], Heve as [[-> _] | [-> _]],
             Hvd as [[-> _] | (t & -> & _)]; simpl; lia.
Qed.

End Startup.

(** * The prompt column of [verify_routellm.py] *)

Module RouteLLMFacts.
Import RouteLLM.

Lemma length_append (a b : string) :
  String.length (a +:+ b) = (String.length a + String.length b)%nat.
Proof. induction a as [|c a IH]; simpl; [done|]. by rewrite <- IH. Qed.

Lemma length_py_take (n : nat) (s : string) :
  String.length (py_take n s) = Nat.min n (String.length s).
Proof.
  revert s. induction n as [|n IH]; intros [|c s]; simpl; try done.
  by rewrite IH.
Qed.

Lemma length_spaces (n : nat) : String.length (spaces n) = n.
Proof. induction n as [|n IH]; simpl; [done|]. by rewrite IH. Qed.

Lemma py_take_append (n : nat) (s t : string) :
  (n <= String.length s)%nat -> py_take n (py_take n s +:+ t) = py_take n s.
Proof.
  revert s. induction n as [|n IH]; intros [|c s] Hlen; simpl in *; try done; try lia.
  rewrite IH; [done|lia].
Qed.

(** [X17] The prompt column of the table has a fixed width: the truncated
    prompt is never longer than 60 characters, so its left-justified cell
    is exactly 60 characters wide; a prompt of at most 60 characters is
    printed whole, and a longer one keeps its first 57 characters. *)
Theorem prompt_cell_is_60_wide (prompt : string) :
  String.length (prompt_cell prompt) = 60%nat /\
  (String.length (truncated prompt) <= 60)%nat /\
  ((String.length prompt <= 60)%nat -> truncated prompt = prompt) /\
  ((60 < String.length prompt)%nat -> String.length (truncated prompt) = 60%nat) /\
  py_take 57 (truncated prompt) = py_take 57 prompt.
Proof.
  assert ((String.length (truncated prompt) <= 60)%nat /\
          ((60 < String.length prompt)%nat -> String.length (truncated prompt) = 60%nat))
    as [Hle Hlong].
  { unfold truncated. destruct (60 <? String.length prompt)%nat eqn:Hcmp.
    - apply Nat.ltb_lt in Hcmp.
      rewrite length_append, length_py_take.
      change (String.length "...") with 3%nat. lia.
    - apply Nat.ltb_ge in Hcmp. lia. }
  split; [|split; [done|split; [|split; [done|]]]].
  - unfold prompt_cell, ljust. rewrite length_append, length_spaces. lia.
  - intros Hshort. unfold truncated.
    by assert ((60 <? String.length prompt)%nat = false) as -> by by apply Nat.ltb_ge.
  - unfold truncated. destruct (60 <? String.length prompt)%nat eqn:Hcmp; [|done].
    apply Nat.ltb_lt in Hcmp. apply py_take_append. lia.
Qed.

End RouteLLMFacts.

(** * Instances of the further properties on the example runtimes *)

Lemma responses_are_jsonrpc_witness :
  is_response (result_response (JInt 1) (JString "pong")).
Proof.
  exact (proj1 (@responses_are_jsonrpc Demo.demo_runtime Demo.ping_call
                  (JDict Demo.demo_responses) (JDict []) 0
                  (result_response (JInt 1) (JString "pong")) eq_refl)).
Defined.

Lemma response_id_tells_parse_errors_witness :
  response_id (parse_error_response "Expecting value: line 1 column 1 (char 0)")
  = Some JNull
  <-> exists diagnostic, @json_loads Demo.demo_runtime "not json" = Raise (JSONDecodeError diagnostic).
Proof.
  exact (proj1 (@response_id_tells_parse_errors Demo.demo_runtime "not json"
                  (JDict Demo.demo_responses) (JDict []) 3
                  (parse_error_response "Expecting value: line 1 column 1 (char 0)")
                  eq_refl)).
Defined.

Lemma result_only_if_configured_witness :
  exists request m,
    @json_loads Demo.demo_runtime Demo.ping_call = Return (JDict request) /\
    dict_lookup "id" request = Some (JInt 1) /\
    dict_lookup "method" request = Some (JString m) /\
    dict_lookup m [] = None /\
    dict_lookup m Demo.demo_responses = Some (JString "pong").
Proof.
  exact (@result_only_if_configured Demo.demo_runtime Demo.ping_call
           Demo.demo_responses [] 0 (JInt 1) (JString "pong") eq_refl).
Defined.

Lemma only_method_and_id_matter_witness :
  @process_request Demo2.runtime Demo.ping_call (JDict Demo.demo_responses) (JDict []) 3
  = @process_request Demo2.runtime Demo2.bare_ping_call
      (JDict Demo.demo_responses) (JDict []) 3.
Proof.
  exact (@only_method_and_id_matter Demo2.runtime Demo.ping_call Demo2.bare_ping_call
           Demo.ping_request Demo2.bare_ping_request
           (JDict Demo.demo_responses) (JDict []) 3 eq_refl eq_refl eq_refl eq_refl).
Defined.

Lemma serving_terminates_witness :
  @step Demo.demo_runtime (@main Demo.demo_runtime ∅ [Demo.ping_call; Demo.notify] 3)
  = None.
Proof.
  refine (proj2 (@serving_terminates Demo.demo_runtime ∅ [Demo.ping_call; Demo.notify]
                   [Stderr "MCP Mock Server starting..."; Stderr "Responses: 0 methods";
                    Stderr "Errors: 0 methods"; Stderr "Delay: 0s"; Stderr "Hang: False"]
                   (Config (JDict []) (JDict []) 0 false) 3 _ _ _));
    [vm_compute; reflexivity | reflexivity | simpl; lia].
Defined.

Lemma serving_composes_witness :
  @serve_all Demo.demo_runtime ([Demo.ping_call] ++ [Demo.notify])
    (JDict Demo.demo_responses) (JDict []) 0
  = (fst (@serve_all Demo.demo_runtime [Demo.ping_call]
            (JDict Demo.demo_responses) (JDict []) 0)
     ++ fst (@serve_all Demo.demo_runtime [Demo.notify]
               (JDict Demo.demo_responses) (JDict []) 0),
     snd (@serve_all Demo.demo_runtime [Demo.notify]
            (JDict Demo.demo_responses) (JDict []) 0)).
Proof.
  apply (@serving_composes Demo.demo_runtime [Demo.ping_call] [Demo.notify]
           (JDict Demo.demo_responses) (JDict []) 0).
  constructor; [reflexivity | constructor].
Defined.

Lemma configuration_is_fixed_witness :
  proc_mode (@main Demo.demo_runtime Demo.hang_environ [Demo.ping_call] 4)
  = start_mode (Config (JDict []) (JDict []) 0 true) \/
  (start_mode (Config (JDict []) (JDict []) 0 true) = Serving (JDict []) (JDict []) 0 /\
   proc_mode (@main Demo.demo_runtime Demo.hang_environ [Demo.ping_call] 4) = Exited).
Proof.
  apply (@configuration_is_fixed Demo.demo_runtime Demo.hang_environ []
           (Config (JDict []) (JDict []) 0 true) [Demo.ping_call] 4).
  vm_compute. reflexivity.
Defined.

Lemma unsized_setting_stops_startup_witness :
  proc_mode (@main Demo.demo_runtime Demo.number_environ [Demo.ping_call] 3)
  = Crashed TypeError /\
  proc_stdin (@main Demo.demo_runtime Demo.number_environ [Demo.ping_call] 3)
  = [Demo.ping_call].
Proof.
  destruct (@unsized_setting_stops_startup Demo.demo_runtime Demo.number_environ
              "MCP_MOCK_RESPONSES" "5" (JInt 5) [Demo.ping_call] 3)
    as (_ & Hmode & Hin & _);
    [left; reflexivity | vm_compute; reflexivity | reflexivity | reflexivity
     | left; exists (JInt 5); vm_compute; reflexivity
     | left; exists (JDict []); vm_compute; reflexivity |].
  exact (conj Hmode Hin).
Defined.

Lemma settings_are_independent_witness :
  delay_seconds (Config (JDict []) (JDict []) (-5) false)
  = delay_seconds (Config (JDict []) (JDict []) (-5) true).
Proof.
  destruct (@settings_are_independent Demo.demo_runtime Demo.negative_delay_environ
              (<[ "MCP_MOCK_HANG" := "1" ]> Demo.negative_delay_environ)
              [] (Config (JDict []) (JDict []) (-5) false)
              [] (Config (JDict []) (JDict []) (-5) true))
    as (_ & _ & Hdelay & _); [vm_compute; reflexivity | vm_compute; reflexivity |].
  apply Hdelay. vm_compute. reflexivity.
Defined.

Lemma valid_settings_are_taken_verbatim_witness :
  responses (Config (JInt 5) (JDict []) 0 true) = JInt 5.
Proof.
  destruct (@valid_settings_are_taken_verbatim Demo.demo_runtime Demo.number_environ
              [] (Config (JInt 5) (JDict []) 0 true))
    as (Hresponses & _); [vm_compute; reflexivity|].
  apply (Hresponses "5"); [vm_compute; reflexivity | reflexivity].
Defined.

Lemma diagnostics_name_the_failed_settings_witness :
  (length [Stderr "ERROR: Invalid MCP_MOCK_DELAY value: soon"] <= 3)%nat /\
  ~ @malformed Demo.demo_runtime {[ "MCP_MOCK_DELAY" := "soon" ]} "MCP_MOCK_RESPONSES".
Proof.
  destruct (@diagnostics_name_the_failed_settings Demo.demo_runtime
              {[ "MCP_MOCK_DELAY" := "soon" ]}
              [Stderr "ERROR: Invalid MCP_MOCK_DELAY value: soon"]
              (Config (JDict []) (JDict []) 0 false))
    as (Hresponses & _ & _ & Hlen); [vm_compute; reflexivity|].
  split; [exact Hlen|]. intros Hbad. apply Hresponses in Hbad.
  apply list_elem_of_singleton in Hbad. discriminate Hbad.
Defined.
